(** * tap-marketo: the sync strategies of [tap_marketo/sync.py]

    A shallow embedding of the value formatter, the activity flattener and
    the four sync strategies with their orchestrator, together with the
    properties of the bookmark state machine.

    Python dictionaries that are only looked up by key (rows, records, the
    singer state) are [gmap]s; dictionaries that are iterated
    ([schema["properties"]], the decoded [attributes] object, request
    parameters) are association lists in iteration order.  Code that can
    raise returns a [result]; code that talks to the API client, the clock
    or the singer output runs in the monad [M] below. *)

From Stdlib Require Import ZArith String Ascii List Lia.
From Stdlib Require Import Floats.PrimFloat.
From stdpp Require Import gmap strings list fin_maps.

Set Warnings "-register-all".

Local Open Scope string_scope.
Local Open Scope Z_scope.

(** ** Python values and exceptions *)

Inductive pyval : Type :=
| VNone
| VBool (b : bool)
| VInt (n : Z)
| VFloat (f : float)
| VStr (s : string)
| VList (l : list pyval)
| VDict (items : list (string * pyval)).

Inductive exn : Type :=
| KeyError (key : string)
| TypeError
| ValueError
| AttributeError
| NameError (name : string)
| StopIteration
| ExportFailed (msg : string)
| PyException (msg : string)
| ClientError (msg : string).

Inductive result (A : Type) : Type :=
| Ok (a : A)
| Err (e : exn).
Arguments Ok {A} a.
Arguments Err {A} e.

Definition rbind {A B} (r : result A) (k : A -> result B) : result B :=
  match r with
  | Ok a => k a
  | Err e => Err e
  end.

Notation "'try!' x ':=' r 'in' k" := (rbind r (fun x => k))
  (at level 10, x name, r at level 100, k at level 200).

(** A pendulum datetime: an instant (microseconds since the epoch) and the
    UTC offset it is rendered with.  Datetimes compare by instant. *)
Record datetime : Type := { dt_instant : Z; dt_offset : Z }.

Definition dt_lt (a b : datetime) : bool := dt_instant a <? dt_instant b.
Definition dt_ge (a b : datetime) : bool := dt_instant b <=? dt_instant a.
Definition dt_add_days (d : datetime) (days : Z) : datetime :=
  {| dt_instant := dt_instant d + days * 86400000000; dt_offset := dt_offset d |}.

(** A bookmark value, a stream name and the truthiness Python gives them:
    the tap stores only strings and [None] in the singer state. *)
Definition truthy (v : option string) : bool :=
  match v with
  | None => false
  | Some s => negb (String.eqb s EmptyString)
  end.

Definition flag (v : option bool) : bool := default false v.

(** The string a truthy bookmark holds. *)
Definition text_of (v : option string) : string := default EmptyString v.

Definition of_bookmark (v : option string) : pyval :=
  match v with
  | None => VNone
  | Some s => VStr s
  end.

(** [a < b] and [a >= b] between a record value and a bookmark: strings
    compare by code point, every other pairing raises [TypeError]. *)
Definition py_lt (a : pyval) (b : option string) : result bool :=
  match a, b with
  | VStr s, Some c => Ok (String.ltb s c)
  | _, _ => Err TypeError
  end.

Definition py_ge (a : pyval) (b : option string) : result bool :=
  match a, b with
  | VStr s, Some c => Ok (String.leb c s)
  | _, _ => Err TypeError
  end.

(** [bookmark > max_bookmark] between two bookmark values. *)
Definition bm_gt (a b : option string) : result bool :=
  match a, b with
  | Some s, Some c => Ok (String.ltb c s)
  | _, _ => Err TypeError
  end.

(** [str.lower] and [str.replace(" ", "_")] on ASCII text. *)
Definition ascii_lower (c : ascii) : ascii :=
  let n := nat_of_ascii c in
  if (Nat.leb 65 n && Nat.leb n 90)%bool then ascii_of_nat (n + 32) else c.

Fixpoint lower (s : string) : string :=
  match s with
  | EmptyString => EmptyString
  | String c r => String (ascii_lower c) (lower r)
  end.

Fixpoint replace_space (s : string) : string :=
  match s with
  | EmptyString => EmptyString
  | String c r =>
      String (if Ascii.eqb c " "%char then "_"%char else c) (replace_space r)
  end.

(** [s.split("_")]. *)
Fixpoint split_on (sep : ascii) (s : string) : list string :=
  match s with
  | EmptyString => [EmptyString]
  | String c r =>
      if Ascii.eqb c sep then EmptyString :: split_on sep r
      else match split_on sep r with
           | [] => [String c EmptyString]
           | w :: ws => String c w :: ws
           end
  end.

(** [s.startswith(p)]. *)
Fixpoint startswith (p s : string) : bool :=
  match p, s with
  | EmptyString, _ => true
  | String a p', String b s' => Ascii.eqb a b && startswith p' s'
  | String _ _, EmptyString => false
  end.

(** ** Catalog: streams and schemas *)

Inductive type_tag : Type :=
| TypeOne (t : string)
| TypeMany (ts : list string).

Record field_schema : Type := {
  fs_type : option type_tag;      (* schema["type"], [None] when the key is missing *)
  fs_format : option string;      (* schema.get("format") *)
  fs_selected : option bool;      (* schema.get("selected") *)
  fs_inclusion : option string    (* field_schema["inclusion"] *)
}.

Record schema : Type := {
  sch_properties : list (string * field_schema);
  sch_selected : option bool
}.

Record stream : Type := {
  s_stream : string;
  s_schema : schema;
  s_replication_key : option string
}.

Definition row := gmap string pyval.
Definition record := gmap string pyval.

Definition row_get (r : gmap string pyval) (field : string) : pyval :=
  default VNone (r !! field).

Definition dict_item (r : gmap string pyval) (key : string) : result pyval :=
  match r !! key with
  | Some v => Ok v
  | None => Err (KeyError key)
  end.

Definition replication_key (s : stream) : result string :=
  match s_replication_key s with
  | Some k => Ok k
  | None => Err (KeyError "replication_key")
  end.

Definition MAX_EXPORT_DAYS : Z := 30.

Definition BASE_ACTIVITY_FIELDS : list string :=
  ["marketoGUID"; "leadId"; "activityDate"; "activityTypeId"].

Definition ACTIVITY_FIELDS : list string :=
  BASE_ACTIVITY_FIELDS ++
  ["primaryAttributeValue"; "primaryAttributeValueId"; "attributes"].

Definition NO_ASSET_MSG : string :=
  "No assets found for the given search criteria.".

Definition str_in (s : string) (l : list string) : bool :=
  existsb (String.eqb s) l.

(** ** The bookmark store

    [singer.bookmarks] is an external library; its four operations are
    modelled as the dictionary reads and writes they perform on the state
    object.  The state is one shared dictionary that every strategy
    mutates in place, so the model keeps a single [State] in the [world]
    and no copies. *)

Record State : Type := {
  bookmarks : gmap string (gmap string (option string));
  currently_syncing : option string
}.

Definition state_get_bookmark (st : State) (tap_stream_id key : string)
    : option string :=
  match bookmarks st !! tap_stream_id with
  | Some bm => default None (bm !! key)
  | None => None
  end.

Definition state_write_bookmark (st : State) (tap_stream_id key : string)
    (val : option string) : State :=
  {| bookmarks :=
       <[tap_stream_id := <[key := val]> (default ∅ (bookmarks st !! tap_stream_id))]>
         (bookmarks st);
     currently_syncing := currently_syncing st |}.

Definition state_set_currently_syncing (st : State) (tap_stream_id : option string)
    : State :=
  {| bookmarks := bookmarks st; currently_syncing := tap_stream_id |}.

(** ** The collaborators and the effects *)

Record export_query : Type := {
  q_startsAt : option string;
  q_endsAt : string;
  q_activityTypeIds : list string
}.

(** A parsed JSON response body; a field is [None] when the key is
    missing from the object. *)
Record response : Type := {
  r_warnings : option (list string);
  r_result : option (list (gmap string pyval));
  r_nextPageToken : option string
}.

Inductive event : Type :=
| CreateExport (kind : string) (fields : list string) (query : export_query)
| WaitForExport (kind export_id : string)
| StreamExport (kind export_id : string)
| Request (method endpoint endpoint_name : string) (params : list (string * pyval))
| WriteRecord (stream_name : string) (rec : gmap string pyval)
| WriteState (st : State)
| LogInfo (msg : string)
| LogWarning (msg : string)
| RecordCount (stream_name : string) (count : Z).

Inductive outcome (A : Type) : Type :=
| Done (a : A)
| Raise (e : exn)
| OutOfFuel.
Arguments Done {A} a.
Arguments Raise {A} e.
Arguments OutOfFuel {A}.

(** Library functions the tap calls: [pendulum.parse], [datetime.isoformat],
    the builtins [int] and [float], [csv.reader] on one decoded line and
    [json.loads] followed by [.items()]. *)
Class Library : Type := {
  pendulum_parse : pyval -> result datetime;
  isoformat : datetime -> string;
  py_int : pyval -> result Z;
  py_float : pyval -> result float;
  parse_csv_line : string -> result (list string);
  json_loads : pyval -> result (list (string * pyval))
}.

(** The API client of [tap_marketo.client], as a transition system on the
    state [Env] of the outside world, and the clock [pendulum.utcnow]. *)
Class Client (Env : Type) : Type := {
  create_export : Env -> string -> list string -> export_query -> Env * result string;
  wait_for_export : Env -> string -> string -> Env * result unit;
  stream_export : Env -> string -> string -> Env * result (list string);
  request : Env -> string -> string -> string -> list (string * pyval)
            -> Env * result response;
  use_corona : Env -> bool;
  utcnow : Env -> Env * datetime
}.

(** ** The value formatter *)

Section Formatter.

Context {Lib : Library}.

Definition is_none_or_empty (value : pyval) : bool :=
  match value with
  | VNone => true
  | VStr s => String.eqb s EmptyString
  | _ => false
  end.

Definition format_value (value : pyval) (sch : field_schema) : result pyval :=
  match fs_type sch with
  | None => Err (KeyError "type")
  | Some ty =>
      let field_type :=
        match ty with
        | TypeOne t => [t]
        | TypeMany ts => ts
        end in
      if is_none_or_empty value then Ok VNone
      else if bool_decide (fs_format sch = Some "date-time") then
        try! d := pendulum_parse value in Ok (VStr (isoformat d))
      else if str_in "integer" field_type then
        try! n := py_int value in Ok (VInt n)
      else if str_in "number" field_type then
        try! f := py_float value in Ok (VFloat f)
      else if str_in "boolean" field_type then
        match value with
        | VBool _ => Ok value
        | VStr s => Ok (VBool (String.eqb (lower s) "true"))
        | _ => Err AttributeError
        end
      else Ok value
  end.

(** The loop of [format_values] over [schema["properties"].items()],
    with the dictionary [rtn] built so far. *)
Fixpoint format_fields (props : list (string * field_schema))
    (r : gmap string pyval) (rtn : gmap string pyval)
    : result (gmap string pyval) :=
  match props with
  | [] => Ok rtn
  | (field, sch) :: rest =>
      if negb (flag (fs_selected sch)) then format_fields rest r rtn
      else
        try! v := format_value (row_get r field) sch in
        format_fields rest r (<[field := v]> rtn)
  end.

Definition format_values (s : stream) (r : gmap string pyval)
    : result (gmap string pyval) :=
  format_fields (sch_properties (s_schema s)) r ∅.

End Formatter.


(** ** The activity flattener *)

Section Flattener.

Context {Lib : Library}.

(** [{field: row[field] for field in BASE_ACTIVITY_FIELDS}]. *)
Fixpoint copy_fields (fields : list string) (r rtn : gmap string pyval)
    : result (gmap string pyval) :=
  match fields with
  | [] => Ok rtn
  | field :: rest =>
      try! v := dict_item r field in
      copy_fields rest r (<[field := v]> rtn)
  end.

(** The loop that copies the primary attribute under its named column. *)
Fixpoint alias_primary (props : list (string * field_schema))
    (r rtn : gmap string pyval) : result (gmap string pyval) :=
  match props with
  | [] => Ok rtn
  | (field, field_schema) :: rest =>
      match fs_inclusion field_schema with
      | None => Err (KeyError "inclusion")
      | Some inclusion =>
          if (String.eqb inclusion "automatic"
              && negb (str_in field ACTIVITY_FIELDS))%bool
          then
            try! v := dict_item r "primaryAttributeValue" in
            alias_primary rest r (<[field := v]> rtn)
          else alias_primary rest r rtn
      end
  end.

(** The loop over [attrs.items()]. *)
Fixpoint expand_attrs (attrs : list (string * pyval)) (rtn : gmap string pyval)
    : gmap string pyval :=
  match attrs with
  | [] => rtn
  | (key, value) :: rest =>
      expand_attrs rest (<[replace_space (lower key) := value]> rtn)
  end.

Definition flatten_activity (r : gmap string pyval) (sch : schema)
    : result (gmap string pyval) :=
  try! rtn := copy_fields BASE_ACTIVITY_FIELDS r ∅ in
  try! rtn := alias_primary (sch_properties sch) r rtn in
  match r !! "attributes" with
  | Some a =>
      try! attrs := json_loads a in
      Ok (expand_attrs attrs rtn)
  | None => Ok rtn
  end.

(** [dict(zip(headers, parsed_line))]: a later column of the same name
    overwrites an earlier one. *)
Fixpoint dict_zip (headers parsed_line : list string) (acc : gmap string pyval)
    : gmap string pyval :=
  match headers, parsed_line with
  | h :: hs, v :: vs => dict_zip hs vs (<[h := VStr v]> acc)
  | _, _ => acc
  end.

(** The value-level part of [handle_activity_line]: the record built from
    one CSV line. *)
Definition activity_record (s : stream) (headers : list string) (line : string)
    : result (gmap string pyval) :=
  try! parsed_line := parse_csv_line line in
  let r := dict_zip headers parsed_line ∅ in
  try! r := flatten_activity r (s_schema s) in
  format_values s r.

End Flattener.

(** ** The monad of the strategies

    A computation reads and updates the outside world, the shared singer
    state and the messages written so far, and finishes normally, raises
    an exception or is cut off when the loop budget [fuel] is used up. *)

Record world (Env : Type) : Type := {
  w_env : Env;
  w_state : State;
  w_out : list event
}.
Arguments w_env {Env} w.
Arguments w_state {Env} w.
Arguments w_out {Env} w.

Definition M (Env A : Type) : Type := world Env -> world Env * outcome A.

Section Monad.

Context {Env : Type}.

Definition ret {A} (a : A) : M Env A := fun w => (w, Done a).

Definition bind {A B} (m : M Env A) (k : A -> M Env B) : M Env B :=
  fun w =>
    match m w with
    | (w', Done a) => k a w'
    | (w', Raise e) => (w', Raise e)
    | (w', OutOfFuel) => (w', OutOfFuel)
    end.

Definition raise {A} (e : exn) : M Env A := fun w => (w, Raise e).

Definition out_of_fuel {A} : M Env A := fun w => (w, OutOfFuel).

Definition lift {A} (r : result A) : M Env A :=
  match r with
  | Ok a => ret a
  | Err e => raise e
  end.

(** Reading a local name that no assignment has bound. *)
Definition unbound_name {A} (name : string) : M Env A :=
  raise (NameError name).

Definition emit (e : event) : M Env unit :=
  fun w =>
    ({| w_env := w_env w; w_state := w_state w; w_out := w_out w ++ [e] |},
     Done tt).

Definition call {A} (op : Env -> Env * A) : M Env A :=
  fun w =>
    let '(env, a) := op (w_env w) in
    ({| w_env := env; w_state := w_state w; w_out := w_out w |}, Done a).

Definition update_state (f : State -> State) : M Env unit :=
  fun w =>
    ({| w_env := w_env w; w_state := f (w_state w); w_out := w_out w |},
     Done tt).

Definition read_state {A} (f : State -> A) : M Env A :=
  fun w => (w, Done (f (w_state w))).

Definition read_env {A} (f : Env -> A) : M Env A :=
  fun w => (w, Done (f (w_env w))).

(** [try: m except ExportFailed: handler; raise]. *)
Definition on_export_failed {A} (m : M Env A) (handler : M Env unit) : M Env A :=
  fun w =>
    match m w with
    | (w', Raise (ExportFailed msg)) =>
        match handler w' with
        | (w'', Done _) => (w'', Raise (ExportFailed msg))
        | (w'', Raise e) => (w'', Raise e)
        | (w'', OutOfFuel) => (w'', OutOfFuel)
        end
    | other => other
    end.

End Monad.

Notation "'let!' x ':=' c1 'in' c2" := (bind c1 (fun x => c2))
  (at level 10, x name, c1 at level 100, c2 at level 200).
Notation "'let!' ' pat ':=' c1 'in' c2" :=
  (bind c1 (fun x => match x with pat => c2 end))
  (at level 10, pat pattern, c1 at level 100, c2 at level 200).

(** ** The sync strategies *)

Section Strategies.

Context {Lib : Library} {Env : Type} {Cli : Client Env}.

(** Wrappers of the effects, named after the calls in the source. *)
Definition get_bookmark (tap_stream_id key : string) : M Env (option string) :=
  read_state (fun st => state_get_bookmark st tap_stream_id key).

Definition write_bookmark (tap_stream_id key : string) (val : option string)
    : M Env unit :=
  update_state (fun st => state_write_bookmark st tap_stream_id key val).

Definition get_currently_syncing : M Env (option string) :=
  read_state currently_syncing.

Definition set_currently_syncing (tap_stream_id : option string) : M Env unit :=
  update_state (fun st => state_set_currently_syncing st tap_stream_id).

Definition write_state : M Env unit :=
  let! st := read_state (fun st => st) in emit (WriteState st).

Definition write_record (stream_name : string) (rec : gmap string pyval)
    : M Env unit :=
  emit (WriteRecord stream_name rec).

Definition log_info (msg : string) : M Env unit := emit (LogInfo msg).
Definition log_warning (msg : string) : M Env unit := emit (LogWarning msg).

Definition pendulum_utcnow : M Env datetime := call utcnow.

Definition client_create_export (kind : string) (fields : list string)
    (query : export_query) : M Env string :=
  let! _ := emit (CreateExport kind fields query) in
  let! r := call (fun env => create_export env kind fields query) in
  lift r.

Definition client_wait_for_export (kind export_id : string) : M Env unit :=
  let! _ := emit (WaitForExport kind export_id) in
  let! r := call (fun env => wait_for_export env kind export_id) in
  lift r.

Definition client_stream_export (kind export_id : string) : M Env (list string) :=
  let! _ := emit (StreamExport kind export_id) in
  let! r := call (fun env => stream_export env kind export_id) in
  lift r.

Definition client_request (method endpoint endpoint_name : string)
    (params : list (string * pyval)) : M Env response :=
  let! _ := emit (Request method endpoint endpoint_name params) in
  let! r := call (fun env => request env method endpoint endpoint_name params) in
  lift r.

Definition data_warnings (data : response) : result (list string) :=
  match r_warnings data with
  | Some ws => Ok ws
  | None => Err (KeyError "warnings")
  end.

Definition data_result (data : response) : result (list (gmap string pyval)) :=
  match r_result data with
  | Some rows => Ok rows
  | None => Err (KeyError "result")
  end.

(** *** Export strategy *)

Definition update_activity_state (s : stream)
    (bookmark export_id export_end : option string) : M Env unit :=
  let! _ := write_bookmark (s_stream s) "export_id" export_id in
  let! _ := write_bookmark (s_stream s) "export_end" export_end in
  let! _ :=
    if truthy bookmark then
      let! rk := lift (replication_key s) in
      write_bookmark (s_stream s) rk bookmark
    else ret tt in
  write_state.

Definition get_or_create_export (s : stream) : M Env (option string) :=
  let! export_id := get_bookmark (s_stream s) "export_id" in
  if negb (truthy export_id) then
    let! activity_type_id :=
      match split_on "_"%char (s_stream s) with
      | [_; activity_type_id] => ret activity_type_id
      | _ => raise ValueError
      end in
    let! rk := lift (replication_key s) in
    let! start_date := get_bookmark (s_stream s) rk in
    (* Line 107 reads [start_pen]; the function binds [start_date] only,
       and the module has no global of that name. *)
    let! start_pen := unbound_name "start_pen" in
    let end_pen := dt_add_days start_pen MAX_EXPORT_DAYS in
    let! now := pendulum_utcnow in
    let! end_pen :=
      if dt_ge end_pen now then pendulum_utcnow else ret end_pen in
    let end_date := isoformat end_pen in
    let query :=
      {| q_startsAt := start_date; q_endsAt := end_date;
         q_activityTypeIds := [activity_type_id] |} in
    let! export_id := client_create_export "activities" ACTIVITY_FIELDS query in
    let! _ := update_activity_state s None (Some export_id) (Some end_date) in
    ret (Some export_id)
  else ret export_id.

Definition handle_activity_line (s : stream) (headers : list string)
    (line : string) : M Env Z :=
  let! rec := lift (activity_record s headers line) in
  let! rk := lift (replication_key s) in
  let! start_date := get_bookmark (s_stream s) rk in
  let! v := lift (dict_item rec rk) in
  let! before := lift (py_lt v start_date) in
  if before then ret 0
  else
    let! _ := write_record (s_stream s) rec in
    ret 1.

(** [for line in lines: record_count += handle_activity_line(...)]. *)
Fixpoint drain_lines (s : stream) (headers : list string) (lines : list string)
    (record_count : Z) : M Env Z :=
  match lines with
  | [] => ret record_count
  | line :: rest =>
      let! n := handle_activity_line s headers line in
      drain_lines s headers rest (record_count + n)
  end.

Fixpoint activities_loop (fuel : nat) (s : stream) (job_started start_pen : datetime)
    (record_count : Z) : M Env Z :=
  if dt_lt start_pen job_started then
    match fuel with
    | O => out_of_fuel
    | S fuel' =>
        let! export_id := get_or_create_export s in
        let! _ :=
          on_export_failed
            (client_wait_for_export "activities" (text_of export_id))
            (update_activity_state s None None None) in
        let! lines := client_stream_export "activities" (text_of export_id) in
        let! headers :=
          match lines with
          | [] => raise StopIteration
          | first :: _ => lift (parse_csv_line first)
          end in
        let! record_count := drain_lines s headers (tail lines) record_count in
        let! start_date := get_bookmark (s_stream s) "export_end" in
        let! _ := update_activity_state s start_date None None in
        let! start_pen := lift (pendulum_parse (of_bookmark start_date)) in
        activities_loop fuel' s job_started start_pen record_count
    end
  else ret record_count.

Definition sync_activities (fuel : nat) (s : stream) : M Env Z :=
  let! rk := lift (replication_key s) in
  let! start_date := get_bookmark (s_stream s) rk in
  let! start_pen := lift (pendulum_parse (of_bookmark start_date)) in
  let! job_started := pendulum_utcnow in
  activities_loop fuel s job_started start_pen 0.

(** *** Offset pagination *)

Definition programs_params (offset : Z) (start_date : option string)
    (end_date : string) : list (string * pyval) :=
  [("maxReturn", VInt 200); ("offset", VInt offset);
   ("earliestUpdatedAt", of_bookmark start_date);
   ("latestUpdatedAt", VStr end_date)].

(** [for row in data["result"]] of [sync_programs]. *)
Fixpoint programs_rows (s : stream) (start_date : option string)
    (rows : list (gmap string pyval)) (record_count : Z) : M Env Z :=
  match rows with
  | [] => ret record_count
  | r :: rest =>
      let! rec := lift (format_values s r) in
      let! v := lift (dict_item rec "updatedAt") in
      let! newer := lift (py_ge v start_date) in
      if newer then
        let! _ := write_record "programs" rec in
        programs_rows s start_date rest (record_count + 1)
      else programs_rows s start_date rest record_count
  end.

(** [while True] of [sync_programs]; [offset] is [params["offset"]] and
    [params["maxReturn"]] stays 200. *)
Fixpoint programs_loop (fuel : nat) (s : stream) (start_date : option string)
    (end_date : string) (offset : Z) (record_count : Z) : M Env Z :=
  match fuel with
  | O => out_of_fuel
  | S fuel' =>
      let! data :=
        client_request "GET" "rest/asset/v1/programs.json" "programs"
          (programs_params offset start_date end_date) in
      let! warnings := lift (data_warnings data) in
      if str_in NO_ASSET_MSG warnings then ret record_count
      else
        let! rows := lift (data_result data) in
        let! record_count := programs_rows s start_date rows record_count in
        programs_loop fuel' s start_date end_date (offset + 200) record_count
  end.

Definition sync_programs (fuel : nat) (s : stream) : M Env Z :=
  let! start_date := get_bookmark "programs" "updatedAt" in
  let! now := pendulum_utcnow in
  let end_date := isoformat now in
  let! record_count := programs_loop fuel s start_date end_date 0 0 in
  let! _ := write_bookmark "programs" "updatedAt" (Some end_date) in
  let! _ := write_state in
  ret record_count.

(** *** Token pagination *)

(** [params[key] = value] on the parameter dictionary. *)
Fixpoint dict_set (key : string) (value : pyval) (params : list (string * pyval))
    : list (string * pyval) :=
  match params with
  | [] => [(key, value)]
  | (k, v) :: rest =>
      if String.eqb k key then (k, value) :: rest
      else (k, v) :: dict_set key value rest
  end.

(** [for row in data["result"]] of [sync_paginated]; returns
    [record_count] and [max_bookmark]. *)
Fixpoint paginated_rows (s : stream) (rk : string) (start_date : option string)
    (rows : list (gmap string pyval)) (record_count : Z)
    (max_bookmark : option string) : M Env (Z * option string) :=
  match rows with
  | [] => ret (record_count, max_bookmark)
  | r :: rest =>
      let! rec := lift (format_values s r) in
      let! v := lift (dict_item rec rk) in
      let! newer := lift (py_ge v start_date) in
      if newer then
        let! _ := write_record (s_stream s) rec in
        let! bookmark := get_bookmark (s_stream s) rk in
        let! greater := lift (bm_gt bookmark max_bookmark) in
        paginated_rows s rk start_date rest (record_count + 1)
          (if greater then bookmark else max_bookmark)
      else paginated_rows s rk start_date rest record_count max_bookmark
  end.

Definition paginated_endpoint (s : stream) : string :=
  "rest/v1/" ++ s_stream s ++ ".json".

(** [while True] of [sync_paginated]. *)
Fixpoint paginated_loop (fuel : nat) (s : stream) (rk : string)
    (start_date : option string) (params : list (string * pyval))
    (record_count : Z) (max_bookmark : option string)
    : M Env (Z * option string) :=
  match fuel with
  | O => out_of_fuel
  | S fuel' =>
      let! data :=
        client_request "GET" (paginated_endpoint s) (s_stream s) params in
      let! rows := lift (data_result data) in
      let! '(record_count, max_bookmark) :=
        paginated_rows s rk start_date rows record_count max_bookmark in
      match r_nextPageToken data with
      | None => ret (record_count, max_bookmark)
      | Some token =>
          let params := dict_set "nextPageToken" (VStr token) params in
          let! _ := write_bookmark (s_stream s) "next_page_token" (Some token) in
          let! _ := write_state in
          paginated_loop fuel' s rk start_date params record_count max_bookmark
      end
  end.

Definition sync_paginated (fuel : nat) (s : stream) : M Env Z :=
  let! rk := lift (replication_key s) in
  let! start_date := get_bookmark (s_stream s) rk in
  let params := [("batchSize", VInt 300)] in
  let! next_page_token := get_bookmark (s_stream s) "next_page_token" in
  let params :=
    if truthy next_page_token
    then dict_set "nextPageToken" (of_bookmark next_page_token) params
    else params in
  let! '(record_count, max_bookmark) :=
    paginated_loop fuel s rk start_date params 0 start_date in
  let! _ := write_bookmark (s_stream s) "next_page_token" None in
  let! _ := write_bookmark (s_stream s) rk max_bookmark in
  let! _ := write_state in
  ret record_count.

(** *** Flat fetch *)

Fixpoint activity_types_rows (s : stream) (rows : list (gmap string pyval))
    (record_count : Z) : M Env Z :=
  match rows with
  | [] => ret record_count
  | r :: rest =>
      let! rec := lift (format_values s r) in
      let! _ := write_record "activity_types" rec in
      activity_types_rows s rest (record_count + 1)
  end.

Definition sync_activity_types (s : stream) : M Env Z :=
  let! data :=
    client_request "GET" "rest/v1/activities/types.json" "activity_types" [] in
  let! rows := lift (data_result data) in
  activity_types_rows s rows 0.

(** *** The orchestrator *)

Definition NO_CORONA_WARNING : string :=
  "Your account does not have Corona support enabled. Without Corona, each sync of "
  ++ "the Leads table requires a full export which can lead to lower data freshness. "
  ++ "Please contact <contact email> at Marketo to request Corona support be added to "
  ++ "your account.".

(** The [if]/[elif] chain on the stream name. *)
Definition dispatch (fuel : nat) (s : stream) : M Env Z :=
  if String.eqb (s_stream s) "activity_types" then sync_activity_types s
  else if startswith "activities_" (s_stream s) then sync_activities fuel s
  else if str_in (s_stream s) ["campaigns"; "lists"] then sync_paginated fuel s
  else if String.eqb (s_stream s) "programs" then sync_programs fuel s
  else raise (PyException ("Stream " ++ s_stream s ++ " not implemented")).

(** The body of the [for] loop once a stream is neither unselected nor
    skipped. *)
Definition sync_stream (fuel : nat) (s : stream) : M Env unit :=
  let! _ := log_info (s_stream s ++ ": starting sync") in
  let! _ := set_currently_syncing (Some (s_stream s)) in
  let! _ := write_state in
  let! record_count := dispatch fuel s in
  let! _ := emit (RecordCount (s_stream s) record_count) in
  let! _ := set_currently_syncing None in
  let! _ := write_state in
  log_info (s_stream s ++ ": finished sync").

(** [for stream in catalog["streams"]], with the local [starting_stream]. *)
Fixpoint sync_streams (fuel : nat) (streams : list stream)
    (starting_stream : option string) : M Env unit :=
  match streams with
  | [] => ret tt
  | s :: rest =>
      if negb (flag (sch_selected (s_schema s))) then
        let! _ := log_info (s_stream s ++ ": not selected") in
        sync_streams fuel rest starting_stream
      else if (truthy starting_stream
               && negb (bool_decide (Some (s_stream s) = starting_stream)))%bool
      then
        let! _ := log_info (s_stream s ++ ": already synced") in
        sync_streams fuel rest starting_stream
      else
        let! _ := sync_stream fuel s in
        sync_streams fuel rest None
  end.

Definition sync (fuel : nat) (catalog : list stream) : M Env unit :=
  let! starting_stream := get_currently_syncing in
  let! _ :=
    if truthy starting_stream
    then log_info ("Resuming sync from " ++ text_of starting_stream)
    else log_info "Starting sync" in
  let! _ := sync_streams fuel catalog starting_stream in
  let! _ := log_info "Finished sync" in
  let! corona := read_env use_corona in
  if negb corona then log_warning NO_CORONA_WARNING else ret tt.

End Strategies.

(** ** Vocabulary of the properties *)

(** [f] is a field of the schema whose field schema is marked selected. *)
Definition marked_selected (props : list (string * field_schema)) (f : string)
    : bool :=
  existsb (fun p => String.eqb (fst p) f && flag (fs_selected (snd p)))%bool props.

(** The record's replication-key value is a string at or after the cursor. *)
Definition cursor_reached (rk : string) (cursor : option string)
    (rec : gmap string pyval) : bool :=
  match rec !! rk, cursor with
  | Some (VStr v), Some c => String.leb c v
  | _, _ => false
  end.

Definition is_request (e : event) : bool :=
  match e with
  | Request _ _ _ _ => true
  | _ => false
  end.

Definition is_record (e : event) : bool :=
  match e with
  | WriteRecord _ _ => true
  | _ => false
  end.

Definition is_create_export (e : event) : bool :=
  match e with
  | CreateExport _ _ _ => true
  | _ => false
  end.

(** The event is a client call, a record or a metric of stream [name]. *)
Definition concerns (name : string) (e : event) : bool :=
  match e with
  | Request _ _ endpoint_name _ => String.eqb endpoint_name name
  | WriteRecord stream_name _ => String.eqb stream_name name
  | RecordCount stream_name _ => String.eqb stream_name name
  | LogInfo msg => String.eqb msg (name ++ ": starting sync")
  | _ => false
  end.

(** The request of [sync_programs] number [j], counted from zero. *)
Definition programs_request (start_date : option string) (end_date : string)
    (j : nat) : event :=
  Request "GET" "rest/asset/v1/programs.json" "programs"
    (programs_params (200 * Z.of_nat j) start_date end_date).

Section Vocabulary.

Context {Lib : Library} {Env : Type} {Cli : Client Env}.

(** A row of a programs page is formatted and compared without an
    exception. *)
Definition programs_row_ok (s : stream) (start_date : option string)
    (r : gmap string pyval) : bool :=
  match format_values s r with
  | Ok rec =>
      match dict_item rec "updatedAt" with
      | Ok v => match py_ge v start_date with Ok _ => true | Err _ => false end
      | Err _ => false
      end
  | Err _ => false
  end.

(** The world after [k] successive requests of [sync_programs], the first
    at [offset], when none of the [k] responses carries the sentinel
    warning and every row of each is processed without an exception;
    [None] otherwise. *)
Fixpoint no_sentinel_pages (k : nat) (s : stream) (start_date : option string)
    (end_date : string) (offset : Z) (env : Env) : option Env :=
  match k with
  | O => Some env
  | S k' =>
      match request env "GET" "rest/asset/v1/programs.json" "programs"
              (programs_params offset start_date end_date) with
      | (env', Ok data) =>
          match r_warnings data, r_result data with
          | Some warnings, Some rows =>
              if (negb (str_in NO_ASSET_MSG warnings)
                  && forallb (programs_row_ok s start_date) rows)%bool
              then no_sentinel_pages k' s start_date end_date (offset + 200) env'
              else None
          | _, _ => None
          end
      | (_, Err _) => None
      end
  end.



End Vocabulary.

(** The state once [update_activity_state(state, stream)] has cleared the
    export bookmarks. *)
Definition cleared_export (st : State) (name : string) : State :=
  state_write_bookmark (state_write_bookmark st name "export_id" None)
    name "export_end" None.

(** The events of a token-paginated sync of stream [name]. *)
Definition paginated_event (name : string) (e : event) : bool :=
  match e with
  | Request _ _ endpoint_name _ => String.eqb endpoint_name name
  | WriteRecord stream_name _ => String.eqb stream_name name
  | WriteState _ => true
  | _ => false
  end.

Definition not_activity_types (e : event) : bool :=
  negb (concerns "activity_types" e).

(** Every message the computation writes satisfies [P]. *)
Definition emits_only {Env A} (P : event -> bool) (m : M Env A) : Prop :=
  forall w w' o, m w = (w', o) ->
    exists evs, w_out w' = (w_out w ++ evs)%list /\ forallb P evs = true.

(** ** Concrete collaborators for the examples

    A library that knows a handful of timestamps, and a scripted client
    that answers requests from a list of prepared responses. *)

Module Fixture.

Definition calendar : list (string * Z) :=
  [("2016-12-31T23:59:59+00:00", 1483228799);
   ("2017-01-01T00:00:00+00:00", 1483228800);
   ("2017-06-01T00:00:00+00:00", 1496275200);
   ("2026-08-31T00:00:00+00:00", 1788134400);
   ("2026-11-04T00:00:00+00:00", 1793750400);
   ("2030-01-01T00:00:00+00:00", 1893456000)].

Definition at_seconds (secs : Z) : datetime :=
  {| dt_instant := secs * 1000000; dt_offset := 0 |}.

Definition parse (v : pyval) : result datetime :=
  match v with
  | VStr s =>
      match List.find (fun p => String.eqb (fst p) s) calendar with
      | Some p => Ok (at_seconds (snd p))
      | None => Err ValueError
      end
  | _ => Err TypeError
  end.

Definition render (d : datetime) : string :=
  match List.find (fun p => snd p * 1000000 =? dt_instant d) calendar with
  | Some p => fst p
  | None => EmptyString
  end.

Definition digit (c : ascii) : option Z :=
  let n := Z.of_nat (nat_of_ascii c) in
  if ((48 <=? n) && (n <=? 57))%bool then Some (n - 48) else None.

Fixpoint decimal (s : string) (acc : Z) : option Z :=
  match s with
  | EmptyString => Some acc
  | String c r =>
      match digit c with
      | Some d => decimal r (10 * acc + d)
      | None => None
      end
  end.

Definition to_int (v : pyval) : result Z :=
  match v with
  | VInt n => Ok n
  | VBool b => Ok (if b then 1 else 0)
  | VStr EmptyString => Err ValueError
  | VStr s =>
      match decimal s 0 with
      | Some n => Ok n
      | None => Err ValueError
      end
  | _ => Err TypeError
  end.

Definition to_float (v : pyval) : result float :=
  match v with
  | VFloat f => Ok f
  | _ => Err ValueError
  end.

Definition loads (v : pyval) : result (list (string * pyval)) :=
  match v with
  | VStr "{}" => Ok []
  | _ => Err ValueError
  end.

Definition library : Library :=
  {| pendulum_parse := parse;
     isoformat := render;
     py_int := to_int;
     py_float := to_float;
     parse_csv_line := fun line => Ok (split_on ","%char line);
     json_loads := loads |}.

Record env : Type := {
  now : datetime;
  responses : list response;
  export_lines : list string;
  export_failure : option string
}.

Definition client : Client env :=
  {| create_export := fun e _ _ _ => (e, Ok "export-1");
     wait_for_export := fun e _ _ =>
       (e, match export_failure e with
           | Some msg => Err (ExportFailed msg)
           | None => Ok tt
           end);
     stream_export := fun e _ _ => (e, Ok (export_lines e));
     request := fun e _ _ _ _ =>
       match responses e with
       | [] => (e, Err (ClientError "no response prepared"))
       | r :: rest =>
           ({| now := now e; responses := rest; export_lines := export_lines e;
               export_failure := export_failure e |}, Ok r)
       end;
     use_corona := fun _ => true;
     utcnow := fun e => (e, now e) |}.

Definition quiet (t : Z) (pages : list response) : env :=
  {| now := at_seconds t; responses := pages; export_lines := [];
     export_failure := None |}.

Definition field (type : string) (format : option string) : field_schema :=
  {| fs_type := Some (TypeMany ["null"; type]); fs_format := format;
     fs_selected := Some true; fs_inclusion := Some "automatic" |}.

Definition hidden (type : string) : field_schema :=
  {| fs_type := Some (TypeMany ["null"; type]); fs_format := None;
     fs_selected := None; fs_inclusion := Some "available" |}.

Definition asset_schema : schema :=
  {| sch_properties :=
       [("id", field "integer" None);
        ("name", field "string" None);
        ("description", hidden "string");
        ("updatedAt", field "string" (Some "date-time"))];
     sch_selected := Some true |}.

Definition asset_stream (name : string) : stream :=
  {| s_stream := name; s_schema := asset_schema;
     s_replication_key := Some "updatedAt" |}.

Definition activity_types_stream : stream :=
  {| s_stream := "activity_types";
     s_schema := {| sch_properties := [("id", field "integer" None);
                                       ("name", field "string" None)];
                    sch_selected := Some true |};
     s_replication_key := None |}.

Definition activity_stream : stream :=
  {| s_stream := "activities_1";
     s_schema := {| sch_properties :=
                      [("marketoGUID", field "string" None);
                       ("leadId", field "integer" None);
                       ("activityDate", field "string" (Some "date-time"));
                       ("activityTypeId", field "integer" None)];
                    sch_selected := Some true |};
     s_replication_key := Some "activityDate" |}.

Definition asset (id : Z) (name updatedAt : string) : gmap string pyval :=
  <["id" := VInt id]> (<["name" := VStr name]>
    (<["description" := VStr "internal"]> (<["updatedAt" := VStr updatedAt]> ∅))).

Definition page (rows : list (gmap string pyval)) (token : option string) : response :=
  {| r_warnings := Some []; r_result := Some rows; r_nextPageToken := token |}.

Definition no_assets : response :=
  {| r_warnings := Some [NO_ASSET_MSG]; r_result := None; r_nextPageToken := None |}.

Definition with_bookmarks (name : string) (bm : list (string * option string))
    (marker : option string) : State :=
  {| bookmarks := {[ name := list_to_map bm ]}; currently_syncing := marker |}.

Definition start {Env} (e : Env) (st : State) : world Env :=
  {| w_env := e; w_state := st; w_out := [] |}.

Definition run_paginated := @sync_paginated library env client.
Definition run_programs := @sync_programs library env client.
Definition run_activities := @sync_activities library env client.
Definition run_sync := @sync library env client.

End Fixture.

(** Worlds and inputs of the examples. *)
Module Scenario.
Import Fixture.

Definition early : string := "2016-12-31T23:59:59+00:00".
Definition t2017 : string := "2017-01-01T00:00:00+00:00".
Definition june : string := "2017-06-01T00:00:00+00:00".
Definition august : string := "2026-08-31T00:00:00+00:00".
Definition today : string := "2026-11-04T00:00:00+00:00".
Definition today_seconds : Z := 1793750400.

(** One page of campaigns, one row newer and one older than the cursor. *)
Definition campaigns_world : world env :=
  start (quiet today_seconds [page [asset 1 "Welcome" june; asset 2 "Old" early] None])
    (with_bookmarks "campaigns" [("updatedAt", Some t2017)] None).

(** An activity stream whose cursor is 65 days before the clock and that
    has no export in progress. *)
Definition backlog_world : world env :=
  start (quiet today_seconds [])
    (with_bookmarks "activities_1" [("activityDate", Some august)] None).

(** The same stream resumed with an export whose job fails. *)
Definition failing_world : world env :=
  start {| now := at_seconds today_seconds; responses := []; export_lines := [];
           export_failure := Some "export job failed" |}
    (with_bookmarks "activities_1"
       [("activityDate", Some august); ("export_id", Some "export-7");
        ("export_end", Some today)] None).

Definition activity_headers : list string :=
  ["marketoGUID"; "leadId"; "activityDate"; "activityTypeId"].


Definition stale_line : string := "g-1,7," ++ early ++ ",1".

Definition stale_record : gmap string pyval :=
  <["marketoGUID" := VStr "g-1"]> (<["leadId" := VInt 7]>
    (<["activityDate" := VStr early]> (<["activityTypeId" := VInt 1]> ∅))).

(** Programs: a page, an empty page, then the sentinel. *)
Definition programs_world (cursor : string) : world env :=
  start (quiet today_seconds [page [asset 1 "Launch" june] None; page [] None; no_assets])
    (with_bookmarks "programs" [("updatedAt", Some cursor)] None).

Definition welcome_record : gmap string pyval :=
  <["id" := VInt 1]> (<["name" := VStr "Welcome"]> (<["updatedAt" := VStr june]> ∅)).

Definition leads_world : world env :=
  start (quiet today_seconds []) (with_bookmarks "leads" [] None).

Definition resumed_world : world env :=
  start (quiet today_seconds [page [] None; page [] None])
    (with_bookmarks "campaigns" [("updatedAt", Some t2017)] (Some "campaigns")).

Definition partial_row : gmap string pyval :=
  <["id" := VStr "12"]> (<["description" := VStr "internal"]>
    (<["updatedAt" := VStr june]> ∅)).

Definition partial_record : gmap string pyval :=
  <["id" := VInt 12]> (<["name" := VNone]> (<["updatedAt" := VStr june]> ∅)).

End Scenario.


(** ** Vocabulary of the further properties *)

(** The value the decoded attributes give the output key [k]: that of the
    last attribute whose normalized name is [k]. *)
Fixpoint attr_lookup (attrs : list (string * pyval)) (k : string) : option pyval :=
  match attrs with
  | [] => None
  | (key, value) :: rest =>
      match attr_lookup rest k with
      | Some v => Some v
      | None => if String.eqb (replace_space (lower key)) k then Some value else None
      end
  end.

(** [k] is a schema field that receives the primary attribute: marked for
    automatic inclusion and none of the activity fields. *)
Definition is_alias (sch : schema) (k : string) : bool :=
  existsb
    (fun p => String.eqb (fst p) k
              && bool_decide (fs_inclusion (snd p) = Some "automatic")
              && negb (str_in (fst p) ACTIVITY_FIELDS))%bool
    (sch_properties sch).

(** Every selected field schema has a [type]. *)
Definition selected_typed (props : list (string * field_schema)) : bool :=
  forallb (fun p => negb (flag (fs_selected (snd p)))
                    || bool_decide (is_Some (fs_type (snd p))))%bool props.

(** The orchestrator passes over the stream: it is not selected, or a
    resume marker is pending and names another stream. *)
Definition skipped (marker : option string) (s : stream) : bool :=
  (negb (flag (sch_selected (s_schema s)))
   || (truthy marker && negb (bool_decide (Some (s_stream s) = marker))))%bool.

Definition is_log (e : event) : bool :=
  match e with
  | LogInfo _ | LogWarning _ => true
  | _ => false
  end.

Definition not_record (e : event) : bool := negb (is_record e).

(** The messages a strategy writes: client calls, records and states, but
    no log line and no metric. *)
Definition strategy_event (e : event) : bool :=
  match e with
  | LogInfo _ | LogWarning _ | RecordCount _ _ => false
  | _ => true
  end.

Definition not_warning (e : event) : bool :=
  match e with
  | LogWarning _ => false
  | _ => true
  end.

Definition is_metric (e : event) : bool :=
  match e with
  | RecordCount _ _ => true
  | _ => false
  end.

(** The states differ at most in the bookmarks of stream [name]. *)
Definition same_except (name : string) (st st' : State) : Prop :=
  currently_syncing st' = currently_syncing st /\
  forall other, other <> name -> bookmarks st' !! other = bookmarks st !! other.

(** Whatever the computation does, it changes the state at most in the
    bookmarks of stream [name]. *)
Definition touches_only {Env A} (name : string) (m : M Env A) : Prop :=
  forall w w' o, m w = (w', o) -> same_except name (w_state w) (w_state w').

(** A computation that ends normally with a count has written as many
    records as the count exceeds [n0]. *)
Definition counts {Env A} (count : A -> Z) (n0 : Z) (m : M Env A) : Prop :=
  forall w w' a, m w = (w', Done a) ->
    exists evs, w_out w' = (w_out w ++ evs)%list /\
                count a = n0 + Z.of_nat (length (List.filter is_record evs)).

Section Laws.
Context {Lib : Library}.

(** What the library conversions do to a value they produced: [int] and
    [float] return it, and a rendered datetime is not empty and parses to a
    datetime that renders the same. *)
Definition formats_are_stable : Prop :=
  (forall n, py_int (VInt n) = Ok n) /\
  (forall f, py_float (VFloat f) = Ok f) /\
  (forall v d, pendulum_parse v = Ok d ->
     isoformat d <> EmptyString /\
     exists d', pendulum_parse (VStr (isoformat d)) = Ok d' /\
                isoformat d' = isoformat d).

End Laws.

Section FlattenerVocabulary.
Context {Lib : Library}.

(** The decoded items of the row's [attributes] column, none when the row
    has no such column. *)
Definition row_attrs (r : gmap string pyval) : result (list (string * pyval)) :=
  match r !! "attributes" with
  | Some a => json_loads a
  | None => Ok []
  end.

End FlattenerVocabulary.

Definition is_upper (c : ascii) : bool :=
  (Nat.leb 65 (nat_of_ascii c) && Nat.leb (nat_of_ascii c) 90)%bool.

Fixpoint has_upper (s : string) : bool :=
  match s with
  | EmptyString => false
  | String c r => (is_upper c || has_upper r)%bool
  end.

(** The parameters of the first request of [sync_paginated], given the
    bookmarked page token. *)
Definition paginated_first_params (token : option string) : list (string * pyval) :=
  if truthy token
  then [("batchSize", VInt 300); ("nextPageToken", of_bookmark token)]
  else [("batchSize", VInt 300)].


(** Inputs of the further examples. *)
Module Cases.
Import Fixture Scenario.

Definition quote : string := String (ascii_of_nat 34) EmptyString.

(** The text of the JSON object with the members [Campaign Run ID] (5) and
    [leadId] (9). *)
Definition attrs_text : string :=
  "{" ++ quote ++ "Campaign Run ID" ++ quote ++ ": 5, "
      ++ quote ++ "leadId" ++ quote ++ ": 9}".

Definition attrs_items : list (string * pyval) :=
  [("Campaign Run ID", VInt 5); ("leadId", VInt 9)].

(** The fixture library, with a [json.loads] that decodes [attrs_text]. *)
Definition library_with_attrs : Library :=
  {| pendulum_parse := parse;
     isoformat := render;
     py_int := to_int;
     py_float := to_float;
     parse_csv_line := fun line => Ok (split_on ","%char line);
     json_loads := fun v =>
       match v with
       | VStr text => if String.eqb text attrs_text then Ok attrs_items else loads v
       | _ => loads v
       end |}.

(** An activity schema with a named column for the primary attribute and a
    column for an attribute. *)
Definition click_schema : schema :=
  {| sch_properties :=
       [("marketoGUID", field "string" None);
        ("leadId", field "integer" None);
        ("activityDate", field "string" (Some "date-time"));
        ("activityTypeId", field "integer" None);
        ("webpage_id", field "string" None);
        ("campaign_run_id",
         {| fs_type := Some (TypeMany ["null"; "integer"]); fs_format := None;
            fs_selected := Some true; fs_inclusion := Some "available" |})];
     sch_selected := Some true |}.

Definition click_row : gmap string pyval :=
  <["marketoGUID" := VStr "g-1"]> (<["leadId" := VStr "7"]>
    (<["activityDate" := VStr june]> (<["activityTypeId" := VStr "1"]>
      (<["primaryAttributeValue" := VStr "landing"]>
        (<["attributes" := VStr attrs_text]> ∅))))).

Definition click_flat : gmap string pyval :=
  <["marketoGUID" := VStr "g-1"]> (<["leadId" := VStr "7"]>
    (<["activityDate" := VStr june]> (<["activityTypeId" := VStr "1"]>
      (<["webpage_id" := VStr "landing"]>
        (<["campaign_run_id" := VInt 5]> (<["leadid" := VInt 9]> ∅)))))).

Definition types_rows : list (gmap string pyval) :=
  [<["id" := VInt 1]> (<["name" := VStr "Visit Webpage"]> ∅);
   <["id" := VInt 2]> (<["name" := VStr "Fill Out Form"]> ∅)].

Definition types_world : world env :=
  start (quiet today_seconds [page types_rows None])
    (with_bookmarks "campaigns" [("updatedAt", Some t2017)] None).

(** A resume marker that names a stream the catalog does not hold. *)
Definition stale_marker_world : world env :=
  start (quiet today_seconds [page [] None])
    (with_bookmarks "campaigns" [("updatedAt", Some t2017)] (Some "leads")).

(** One page of campaigns that announces a next page; the client has no
    answer to the request for it. *)
Definition interrupted_world : world env :=
  start (quiet today_seconds [page [asset 1 "Welcome" june] (Some "token-2")])
    (with_bookmarks "campaigns" [("updatedAt", Some t2017)] None).

Definition export_header : string := "marketoGUID,leadId,activityDate,activityTypeId".

(** A bookmarked export whose window ends at the clock, with a line before
    the cursor and a line after it. *)
Definition resumed_export_world : world env :=
  start {| now := at_seconds today_seconds; responses := [];
           export_lines := [export_header; "g-1,7," ++ june ++ ",1";
                            "g-2,8," ++ today ++ ",1"];
           export_failure := None |}
    (with_bookmarks "activities_1"
       [("activityDate", Some august); ("export_id", Some "export-7");
        ("export_end", Some today)] None).

End Cases.

(** * Properties *)

Section FormatterProps.
Context {Lib : Library}.

Lemma format_value_missing sch v :
  format_value VNone sch = Ok v -> v = VNone.
Proof.
  unfold format_value. destruct (fs_type sch); simpl; congruence.
Qed.

Lemma format_fields_spec props r : forall rtn rec,
  format_fields props r rtn = Ok rec ->
  (forall f, marked_selected props f = false -> rec !! f = rtn !! f) /\
  (forall f, marked_selected props f = true ->
     is_Some (rec !! f) /\ (r !! f = None -> rec !! f = Some VNone)).
Proof.
  induction props as [|[g sch] rest IH]; intros rtn rec Hrun; simpl in Hrun.
  - inversion Hrun; subst. split; [done|]. intros f Hf. discriminate Hf.
  - destruct (flag (fs_selected sch)) eqn:Hsel; simpl in Hrun.
    + destruct (format_value (row_get r g) sch) as [v|e] eqn:Hv; simpl in Hrun; [|done].
      destruct (IH _ _ Hrun) as [Hkeep Hnew].
      split; intros f; simpl; rewrite Hsel, andb_true_r.
      * intros [Hne Hrest]%orb_false_elim. rewrite Hkeep by done.
        apply lookup_insert_ne. intros ->. by rewrite String.eqb_refl in Hne.
      * intros Hf. destruct (marked_selected rest f) eqn:Hrest; [by apply Hnew|].
        rewrite orb_false_r in Hf. apply String.eqb_eq in Hf as ->.
        rewrite Hkeep, lookup_insert_eq by done. split; [eauto|].
        intros Hrow. unfold row_get in Hv. rewrite Hrow in Hv. simpl in Hv.
        by rewrite (format_value_missing _ _ Hv).
    + destruct (IH _ _ Hrun) as [Hkeep Hnew].
      split; intros f; simpl; rewrite Hsel, andb_false_r; simpl; auto.
Qed.

(** [format_values] returns a record as soon as every selected field can
    be formatted. *)
Lemma format_fields_returns props r : forall rtn,
  (forall f sch, (f, sch) ∈ props -> flag (fs_selected sch) = true ->
     exists v, format_value (row_get r f) sch = Ok v) ->
  exists rec, format_fields props r rtn = Ok rec.
Proof.
  induction props as [|[g sch] rest IH]; intros rtn Hall; simpl; [eauto|].
  destruct (flag (fs_selected sch)) eqn:Hsel; simpl.
  - destruct (Hall g sch) as [v ->]; [apply elem_of_cons; by left|done|]. simpl.
    apply IH. intros f s Hin. apply Hall. apply elem_of_cons. by right.
  - apply IH. intros f s Hin. apply Hall. apply elem_of_cons. by right.
Qed.

(** Claim C10: the record produced by [format_values] has exactly the
    fields of the stream's schema that are marked selected; a field that
    is not marked selected never appears, and a selected field that the
    row lacks appears with the value [None]. *)
Theorem format_values_selected_fields (s : stream) (r rec : gmap string pyval) :
  format_values s r = Ok rec ->
  (forall f, is_Some (rec !! f)
             <-> marked_selected (sch_properties (s_schema s)) f = true) /\
  (forall f, marked_selected (sch_properties (s_schema s)) f = true ->
             r !! f = None -> rec !! f = Some VNone).
Proof.
  intros Hrun. destruct (format_fields_spec _ _ _ _ Hrun) as [Hkeep Hnew].
  split.
  - intros f. destruct (marked_selected _ f) eqn:Hf.
    + split; [done|]. intros _. by apply Hnew.
    + rewrite Hkeep, lookup_empty by done. split; [by intros [? ?]|done].
  - intros f Hf. by apply Hnew.
Qed.

End FormatterProps.

Lemma ltb_irrefl s : String.ltb s s = false.
Proof.
  unfold String.ltb. pose proof (String.compare_antisym s s) as Ha.
  destruct (String.compare s s); simpl in Ha; congruence.
Qed.

Lemma ltb_negb_leb a b : String.ltb a b = negb (String.leb b a).
Proof.
  unfold String.ltb, String.leb. rewrite (String.compare_antisym a b).
  by destruct (String.compare b a).
Qed.

Lemma py_lt_ge v c b : py_lt v c = Ok b -> py_ge v c = Ok (negb b).
Proof.
  destruct v, c; simpl; try discriminate. intros [= <-].
  by rewrite ltb_negb_leb, negb_involutive.
Qed.

Lemma py_ge_reached rk c rec v b :
  dict_item rec rk = Ok v -> py_ge v c = Ok b -> cursor_reached rk c rec = b.
Proof.
  unfold dict_item, cursor_reached. destruct (rec !! rk); [|done].
  intros [= ->]. destruct v, c; simpl; congruence.
Qed.

Lemma state_get_write_eq st id key v :
  state_get_bookmark (state_write_bookmark st id key v) id key = v.
Proof.
  unfold state_get_bookmark, state_write_bookmark. simpl.
  by rewrite !lookup_insert_eq.
Qed.

Lemma state_get_write_ne st id key v id' key' :
  (id, key) <> (id', key') ->
  state_get_bookmark (state_write_bookmark st id key v) id' key'
  = state_get_bookmark st id' key'.
Proof.
  intros Hne. unfold state_get_bookmark, state_write_bookmark. simpl.
  destruct (decide (id = id')) as [->|Hid].
  - rewrite lookup_insert_eq. rewrite lookup_insert_ne by congruence.
    by destruct (bookmarks st !! id').
  - by rewrite lookup_insert_ne.
Qed.

Ltac munfold :=
  unfold get_bookmark, write_bookmark, get_currently_syncing,
    set_currently_syncing, write_state, write_record, log_info, log_warning,
    pendulum_utcnow, client_request, client_create_export,
    client_wait_for_export, client_stream_export, unbound_name in *;
  unfold lift, read_state, read_env, update_state, emit, call in *;
  unfold bind, ret, raise, out_of_fuel in *.

Section PaginatedProps.
Context {Lib : Library} {Env : Type} {Cli : Client Env}.

Lemma paginated_rows_spec (s : stream) rk start rows :
  forall n mb (w w' : world Env) n' mb',
  paginated_rows s rk start rows n mb w = (w', Done (n', mb')) ->
  exists recs,
    Forall2 (fun r rec => format_values s r = Ok rec) rows recs /\
    w_out w' = (w_out w
      ++ map (WriteRecord (s_stream s)) (List.filter (cursor_reached rk start) recs))%list /\
    w_state w' = w_state w /\ w_env w' = w_env w /\
    n' = n + Z.of_nat (length (List.filter (cursor_reached rk start) recs)) /\
    (state_get_bookmark (w_state w) (s_stream s) rk = mb -> mb' = mb).
Proof.
  induction rows as [|r rest IH]; intros n mb w w' n' mb' Hrun; simpl in Hrun.
  - munfold. inversion Hrun; subst. exists []. simpl.
    rewrite app_nil_r. repeat split; auto with lia.
  - munfold.
    destruct (format_values s r) as [rec|e] eqn:Hrec; [|done].
    destruct (dict_item rec rk) as [v|e] eqn:Hv; [|done].
    destruct (py_ge v start) as [b|e] eqn:Hge; [|done].
    pose proof (py_ge_reached _ _ _ _ _ Hv Hge) as Hreach.
    destruct b; simpl in Hrun.
    + destruct (bm_gt (state_get_bookmark (w_state w) (s_stream s) rk) mb)
        as [g|e] eqn:Hgt; [|done].
      simpl in Hrun. apply IH in Hrun as (recs & Hall & Hout & Hst & Henv & Hn & Hmb).
      simpl in *. exists (rec :: recs). simpl. rewrite Hreach. simpl.
      repeat split; auto.
      * rewrite Hout, <- app_assoc. done.
      * lia.
      * intros Hcur. rewrite Hcur in *.
        destruct mb as [m|]; [|done]. simpl in Hgt. rewrite ltb_irrefl in Hgt.
        inversion Hgt; subst. auto.
    + apply IH in Hrun as (recs & Hall & Hout & Hst & Henv & Hn & Hmb).
      exists (rec :: recs). simpl. rewrite Hreach. repeat split; auto.
Qed.


End PaginatedProps.

Section ActivitiesProps.
Context {Lib : Library} {Env : Type} {Cli : Client Env}.

Lemma handle_activity_line_spec (s : stream) rk headers line (w w' : world Env) n :
  s_replication_key s = Some rk ->
  handle_activity_line s headers line w = (w', Done n) ->
  exists rec,
    activity_record s headers line = Ok rec /\
    let reached :=
      cursor_reached rk (state_get_bookmark (w_state w) (s_stream s) rk) rec in
    w_out w' = (w_out w ++ if reached then [WriteRecord (s_stream s) rec] else [])%list /\
    w_state w' = w_state w /\ w_env w' = w_env w /\
    n = if reached then 1 else 0.
Proof.
  intros Hs Hrun. unfold handle_activity_line, replication_key in Hrun.
  rewrite Hs in Hrun. munfold.
  destruct (activity_record s headers line) as [rec|e]; [|done]. simpl in Hrun.
  destruct (dict_item rec rk) as [v|e] eqn:Hv; [|done]. simpl in Hrun.
  destruct (py_lt v _) as [b|e] eqn:Hlt; [|done]. simpl in Hrun.
  apply py_lt_ge in Hlt. pose proof (py_ge_reached _ _ _ _ _ Hv Hlt) as Hreach.
  exists rec. split; [done|]. simpl. rewrite Hreach.
  destruct b; simpl in *; inversion Hrun; subst; simpl; rewrite ?app_nil_r; done.
Qed.

Lemma drain_lines_spec (s : stream) rk headers lines :
  s_replication_key s = Some rk ->
  forall n (w w' : world Env) n',
  drain_lines s headers lines n w = (w', Done n') ->
  exists recs,
    Forall2 (fun line rec => activity_record s headers line = Ok rec) lines recs /\
    let emitted :=
      List.filter
        (cursor_reached rk (state_get_bookmark (w_state w) (s_stream s) rk)) recs in
    w_out w' = (w_out w ++ map (WriteRecord (s_stream s)) emitted)%list /\
    w_state w' = w_state w /\ w_env w' = w_env w /\
    n' = n + Z.of_nat (length emitted).
Proof.
  intros Hs. induction lines as [|line rest IH]; intros n w w' n' Hrun; simpl in Hrun.
  - munfold. inversion Hrun; subst. exists []. simpl.
    rewrite app_nil_r. repeat split; auto with lia.
  - unfold bind in Hrun.
    destruct (handle_activity_line s headers line w) as [w1 [k|e|]] eqn:Hline;
      [|done|done].
    destruct (handle_activity_line_spec _ _ _ _ _ _ _ Hs Hline)
      as (rec & Hrec & Hout1 & Hst1 & Henv1 & Hk).
    apply IH in Hrun as (recs & Hall & Hout & Hst & Henv & Hn).
    simpl in *. rewrite Hst1 in *.
    exists (rec :: recs). simpl.
    destruct (cursor_reached rk _ rec); simpl;
      (repeat split; [by constructor|rewrite Hout, Hout1, <- app_assoc; done
                     |congruence|congruence|lia]).
Qed.

Lemma get_or_create_export_reuses (s : stream) (w : world Env) :
  truthy (state_get_bookmark (w_state w) (s_stream s) "export_id") = true ->
  get_or_create_export s w
  = (w, Done (state_get_bookmark (w_state w) (s_stream s) "export_id")).
Proof. intros Ht. unfold get_or_create_export. munfold. by rewrite Ht. Qed.

Lemma get_or_create_export_raises (s : stream) (w : world Env) :
  truthy (state_get_bookmark (w_state w) (s_stream s) "export_id") = false ->
  exists e, get_or_create_export s w = (w, Raise e).
Proof.
  intros Ht. unfold get_or_create_export. munfold. rewrite Ht. simpl.
  destruct (split_on _ _) as [|? [|? [|? ?]]]; eauto.
  destruct (replication_key s); eauto.
Qed.


Lemma activities_loop_done (s : stream) fuel js start_pen rc (w : world Env) :
  dt_lt start_pen js = false ->
  activities_loop fuel s js start_pen rc w = (w, Done rc).
Proof. intros Hlt. destruct fuel; simpl; by rewrite Hlt. Qed.

End ActivitiesProps.


Section ActivitiesLoop.
Context {Lib : Library} {Env : Type} {Cli : Client Env}.

Lemma update_activity_state_run (s : stream) rk bookmark export_id export_end (w : world Env) :
  s_replication_key s = Some rk ->
  let st1 :=
    state_write_bookmark
      (state_write_bookmark (w_state w) (s_stream s) "export_id" export_id)
      (s_stream s) "export_end" export_end in
  let st2 :=
    if truthy bookmark then state_write_bookmark st1 (s_stream s) rk bookmark
    else st1 in
  update_activity_state s bookmark export_id export_end w
  = ({| w_env := w_env w; w_state := st2; w_out := (w_out w ++ [WriteState st2])%list |},
     Done tt).
Proof.
  intros Hs. unfold update_activity_state, replication_key. rewrite Hs. munfold.
  simpl. by destruct (truthy bookmark).
Qed.

Lemma update_activity_state_clear (s : stream) (w : world Env) :
  update_activity_state s None None None w
  = ({| w_env := w_env w; w_state := cleared_export (w_state w) (s_stream s);
        w_out := (w_out w ++ [WriteState (cleared_export (w_state w) (s_stream s))])%list |},
     Done tt).
Proof. reflexivity. Qed.


Lemma cleared_export_id (st : State) name :
  state_get_bookmark (cleared_export st name) name "export_id" = None.
Proof.
  unfold cleared_export. rewrite state_get_write_ne by congruence.
  apply state_get_write_eq.
Qed.

Lemma cleared_export_end (st : State) name :
  state_get_bookmark (cleared_export st name) name "export_end" = None.
Proof. apply state_get_write_eq. Qed.



End ActivitiesLoop.

Section ProgramsProps.
Context {Lib : Library} {Env : Type} {Cli : Client Env}.

Lemma programs_rows_grows (s : stream) start rows :
  forall rc (w w' : world Env) o,
  programs_rows s start rows rc w = (w', o) ->
  exists evs, w_out w' = (w_out w ++ evs)%list /\ List.filter is_request evs = []
              /\ w_env w' = w_env w /\ w_state w' = w_state w.
Proof.
  induction rows as [|r rest IH]; intros rc w w' o Hrun; simpl in Hrun.
  - munfold. inversion Hrun; subst. exists []. by rewrite app_nil_r.
  - munfold.
    destruct (format_values s r) as [rec|e];
      [|inversion Hrun; subst; exists []; by rewrite app_nil_r].
    destruct (dict_item rec "updatedAt") as [v|e];
      [|inversion Hrun; subst; exists []; by rewrite app_nil_r].
    destruct (py_ge v start) as [[]|e]; simpl in Hrun;
      [| |inversion Hrun; subst; exists []; by rewrite app_nil_r].
    + apply IH in Hrun as (evs & Hout & Hreq & Henv & Hst). simpl in *.
      exists (WriteRecord "programs" rec :: evs). rewrite Hout, <- app_assoc. done.
    + by apply IH in Hrun.
Qed.

Lemma programs_rows_ok (s : stream) start rows :
  forallb (programs_row_ok s start) rows = true ->
  forall rc (w : world Env), exists w' rc', programs_rows s start rows rc w = (w', Done rc').
Proof.
  induction rows as [|r rest IH]; intros Hok rc w; simpl.
  - munfold. eauto.
  - simpl in Hok. apply andb_prop in Hok as [Hr Hrest]. unfold programs_row_ok in Hr.
    munfold.
    destruct (format_values s r) as [rec|e]; [|done].
    destruct (dict_item rec "updatedAt") as [v|e]; [|done].
    destruct (py_ge v start) as [[]|e]; simpl; [| |done]; by apply IH.
Qed.

Lemma programs_loop_grows (s : stream) start end_date fuel :
  forall offset rc (w w' : world Env) o,
  programs_loop fuel s start end_date offset rc w = (w', o) ->
  exists evs, w_out w' = (w_out w ++ evs)%list.
Proof.
  induction fuel as [|fuel IH]; intros offset rc w w' o Hrun; simpl in Hrun.
  - munfold. inversion Hrun; subst. exists []. by rewrite app_nil_r.
  - munfold. simpl in Hrun.
    destruct (request _ _ _ _ _) as [env [data|e]]; simpl in Hrun;
      [|inversion Hrun; subst; simpl; eauto].
    destruct (data_warnings data) as [ws|e]; [|inversion Hrun; subst; simpl; eauto].
    destruct (str_in NO_ASSET_MSG ws); [inversion Hrun; subst; simpl; eauto|].
    destruct (data_result data) as [rows|e]; [|inversion Hrun; subst; simpl; eauto].
    destruct (programs_rows s start rows rc _) as [w1 [rc1|e|]] eqn:Hrows;
      apply programs_rows_grows in Hrows as (evs1 & Hout1 & _); simpl in Hout1.
    + apply IH in Hrun as [evs2 Hout2]. rewrite Hout2, Hout1, <- !app_assoc. eauto.
    + inversion Hrun; subst. rewrite Hout1, <- !app_assoc. eauto.
    + inversion Hrun; subst. rewrite Hout1, <- !app_assoc. eauto.
Qed.

(** [k] pages without the sentinel use up [k] iterations and [k] requests. *)
Lemma programs_loop_pages (s : stream) start end_date k :
  forall j0 env env_k,
  no_sentinel_pages k s start end_date (200 * Z.of_nat j0) env = Some env_k ->
  forall rc (w : world Env), w_env w = env ->
  exists evs rc',
    List.filter is_request evs = map (programs_request start end_date) (seq j0 k) /\
    forall fuel,
      programs_loop (k + fuel) s start end_date (200 * Z.of_nat j0) rc w
      = programs_loop fuel s start end_date (200 * Z.of_nat (j0 + k)) rc'
          {| w_env := env_k; w_state := w_state w; w_out := (w_out w ++ evs)%list |}.
Proof.
  induction k as [|k IH]; intros j0 env env_k Hpages rc w Henv; simpl in Hpages.
  - inversion Hpages; subst. exists [], rc. split; [done|]. intros fuel. simpl.
    rewrite app_nil_r, Nat.add_0_r. by destruct w.
  - destruct (request env _ _ _ _) as [env1 [data|e]] eqn:Hreq; [|done].
    destruct (r_warnings data) as [ws|] eqn:Hws; [|done].
    destruct (r_result data) as [rows|] eqn:Hrows; [|done].
    destruct (str_in NO_ASSET_MSG ws) eqn:Hsent; [done|]. simpl in Hpages.
    destruct (forallb _ rows) eqn:Hok; [|done].
    set (w0 := {| w_env := env1; w_state := w_state w;
                  w_out := (w_out w ++ [programs_request start end_date j0])%list |}).
    destruct (programs_rows_ok s start rows Hok rc w0) as (w1 & rc1 & Hrun1).
    destruct (programs_rows_grows _ _ _ _ _ _ _ Hrun1) as (evs1 & Hout1 & Hreq1 & Henv1 & Hst1).
    replace (200 * Z.of_nat j0 + 200) with (200 * Z.of_nat (S j0)) in Hpages by lia.
    destruct (IH (S j0) env1 env_k Hpages rc1 w1 Henv1) as (evs2 & rc' & Hreq2 & Hloop).
    exists (programs_request start end_date j0 :: evs1 ++ evs2)%list, rc'. split.
    + simpl. rewrite List.filter_app, Hreq1, Hreq2. done.
    + intros fuel. simpl. munfold. simpl. rewrite Henv, Hreq. simpl.
      unfold data_warnings, data_result. rewrite Hws, Hrows, Hsent.
      fold w0. unfold programs_request in w0. fold w0. rewrite Hrun1.
      replace (200 * Z.of_nat j0 + 200) with (200 * Z.of_nat (S j0)) by lia.
      rewrite Hloop. rewrite Hst1, Hout1. subst w0. simpl.
      rewrite <- !app_assoc. simpl.
      by replace (j0 + S k)%nat with (S j0 + k)%nat by lia.
Qed.

Lemma programs_loop_step (s : stream) start end_date fuel offset rc (w : world Env) :
  exists w' o evs more,
    programs_loop (S fuel) s start end_date offset rc w = (w', o) /\
    w_out w' = (w_out w ++ evs)%list /\
    List.filter is_request evs
    = Request "GET" "rest/asset/v1/programs.json" "programs"
        (programs_params offset start end_date) :: more /\
    forall env' data warnings,
      request (w_env w) "GET" "rest/asset/v1/programs.json" "programs"
        (programs_params offset start end_date) = (env', Ok data) ->
      r_warnings data = Some warnings ->
      str_in NO_ASSET_MSG warnings = true ->
      o = Done rc /\ more = [] /\ w_env w' = env' /\ w_state w' = w_state w.
Proof.
  destruct (programs_loop (S fuel) s start end_date offset rc w) as [w' o] eqn:Hrun.
  exists w', o. simpl in Hrun. munfold. simpl in Hrun.
  destruct (request (w_env w) _ _ _ _) as [env1 [data|e]] eqn:Hreq; simpl in Hrun.
  2:{ inversion Hrun; subst. eexists [_], []. simpl.
      do 3 (split; [reflexivity|]). intros ? ? ? [=]. }
  unfold data_warnings in Hrun.
  destruct (r_warnings data) as [ws|] eqn:Hws.
  2:{ inversion Hrun; subst. eexists [_], []. simpl.
      do 3 (split; [reflexivity|]). intros ? ? ? [= <- <-]; congruence. }
  destruct (str_in NO_ASSET_MSG ws) eqn:Hsent.
  { inversion Hrun; subst. eexists [_], []. simpl.
    do 3 (split; [reflexivity|]). intros ? ? ? [= <- <-]; done. }
  assert (Hnot : forall (P : Prop) env' d ws',
             (env1, @Ok response data) = (env', Ok d) -> r_warnings d = Some ws' ->
             str_in NO_ASSET_MSG ws' = true -> P).
  { intros P ? ? ? [= <- <-] Hw Hs. congruence. }
  destruct (data_result data) as [rows|e].
  2:{ inversion Hrun; subst. eexists [_], []. simpl.
      do 3 (split; [reflexivity|]).
      intros ? ? ? Hr Hw Hs. exact (Hnot _ _ _ _ Hr Hw Hs). }
  destruct (programs_rows s start rows rc _) as [w1 [rc1|e|]] eqn:Hrows;
    apply programs_rows_grows in Hrows as (evs1 & Hout1 & Hreq1 & _ & _);
    simpl in Hout1.
  - pose proof (programs_loop_grows _ _ _ _ _ _ _ _ _ Hrun) as [evs2 Hout2].
    eexists (_ :: evs1 ++ evs2)%list, _. split; [done|]. split.
    + rewrite Hout2, Hout1, <- !app_assoc. done.
    + simpl. rewrite List.filter_app, Hreq1. split; [reflexivity|].
      intros ? ? ? Hr Hw Hs. exact (Hnot _ _ _ _ Hr Hw Hs).
  - inversion Hrun; subst. eexists (_ :: evs1)%list, _. split; [done|]. split.
    + rewrite Hout1, <- !app_assoc. done.
    + simpl. rewrite Hreq1. split; [reflexivity|].
      intros ? ? ? Hr Hw Hs. exact (Hnot _ _ _ _ Hr Hw Hs).
  - inversion Hrun; subst. eexists (_ :: evs1)%list, _. split; [done|]. split.
    + rewrite Hout1, <- !app_assoc. done.
    + simpl. rewrite Hreq1. split; [reflexivity|].
      intros ? ? ? Hr Hw Hs. exact (Hnot _ _ _ _ Hr Hw Hs).
Qed.

Lemma sync_programs_run (s : stream) fuel (w : world Env) env0 now :
  utcnow (w_env w) = (env0, now) ->
  sync_programs fuel s w
  = match programs_loop fuel s (state_get_bookmark (w_state w) "programs" "updatedAt")
            (isoformat now) 0 0
            {| w_env := env0; w_state := w_state w; w_out := w_out w |} with
    | (w1, Done rc) =>
        let st := state_write_bookmark (w_state w1) "programs" "updatedAt"
                    (Some (isoformat now)) in
        ({| w_env := w_env w1; w_state := st;
            w_out := (w_out w1 ++ [WriteState st])%list |}, Done rc)
    | (w1, Raise e) => (w1, Raise e)
    | (w1, OutOfFuel) => (w1, OutOfFuel)
    end.
Proof.
  intros Hnow. unfold sync_programs. munfold. simpl. rewrite Hnow. simpl.
  by destruct (programs_loop _ _ _ _ _ _ _) as [w1 [rc|e|]].
Qed.

Lemma programs_requests_until_sentinel (s : stream) fuel k
    (w : world Env) env0 now env_k :
  let start_date := state_get_bookmark (w_state w) "programs" "updatedAt" in
  let end_date := isoformat now in
  utcnow (w_env w) = (env0, now) ->
  no_sentinel_pages k s start_date end_date 0 env0 = Some env_k ->
  (k < fuel)%nat ->
  exists w' o evs more,
    sync_programs fuel s w = (w', o) /\
    w_out w' = (w_out w ++ evs)%list /\
    List.filter is_request evs
    = (map (programs_request start_date end_date) (seq 0 (S k)) ++ more)%list /\
    forall env' data warnings,
      request env_k "GET" "rest/asset/v1/programs.json" "programs"
        (programs_params (200 * Z.of_nat k) start_date end_date) = (env', Ok data) ->
      r_warnings data = Some warnings ->
      str_in NO_ASSET_MSG warnings = true ->
      (exists n, o = Done n) /\ more = [] /\ w_env w' = env' /\
      state_get_bookmark (w_state w') "programs" "updatedAt" = Some end_date.
Proof.
  intros start_date end_date Hnow Hpages Hfuel.
  rewrite (sync_programs_run s fuel w env0 now Hnow).
  fold start_date end_date.
  set (w0 := {| w_env := env0; w_state := w_state w; w_out := w_out w |}).
  destruct (programs_loop_pages s start_date end_date k 0%nat env0 env_k Hpages 0 w0 eq_refl)
    as (evs & rc & Hreqs & Hloop).
  specialize (Hloop (S (fuel - S k))).
  replace (k + S (fuel - S k))%nat with fuel in Hloop by lia.
  change (200 * Z.of_nat 0) with 0 in Hloop. rewrite Hloop. simpl Nat.add.
  match goal with |- context [programs_loop _ s start_date end_date ?o rc ?w1] =>
    destruct (programs_loop_step s start_date end_date (fuel - S k) o rc w1)
      as (w' & o' & evs' & more & Hrun & Hout & Hreq' & Hsent) end.
  rewrite Hrun. simpl in Hout, Hsent.
  assert (Hall : List.filter is_request (evs ++ evs')
                 = (map (programs_request start_date end_date) (seq 0 (S k)) ++ more)%list).
  { rewrite List.filter_app, Hreqs, Hreq', seq_S, map_app, <- app_assoc. done. }
  destruct o' as [n|e|].
  - eexists _, _, (evs ++ evs' ++ [_])%list, more. split; [reflexivity|]. simpl.
    split; [by rewrite Hout, <- !app_assoc|]. split.
    + rewrite app_assoc, List.filter_app, Hall. simpl. by rewrite app_nil_r.
    + intros env' data ws Hr Hw Hs.
      destruct (Hsent env' data ws Hr Hw Hs) as (_ & -> & Henv & _).
      repeat split; eauto. apply state_get_write_eq.
  - eexists _, _, (evs ++ evs')%list, more. split; [reflexivity|].
    split; [by rewrite Hout, <- !app_assoc|]. split; [done|].
    intros env' data ws Hr Hw Hs.
    by destruct (Hsent env' data ws Hr Hw Hs) as (? & _).
  - eexists _, _, (evs ++ evs')%list, more. split; [reflexivity|].
    split; [by rewrite Hout, <- !app_assoc|]. split; [done|].
    intros env' data ws Hr Hw Hs.
    by destruct (Hsent env' data ws Hr Hw Hs) as (? & _).
Qed.
Lemma programs_rows_done_ok (s : stream) start rows :
  forall rc (w w' : world Env) n,
  programs_rows s start rows rc w = (w', Done n) ->
  forallb (programs_row_ok s start) rows = true.
Proof.
  induction rows as [|r rest IH]; intros rc w w' n Hrun; simpl in *; [done|].
  munfold. unfold programs_row_ok.
  destruct (format_values s r) as [rec|e]; [|done].
  destruct (dict_item rec "updatedAt") as [v|e]; [|done].
  destruct (py_ge v start) as [[]|e]; simpl in *; [| |done]; by apply IH in Hrun.
Qed.

(** A normal end of the loop comes from a response that carries the
    sentinel, after pages that do not. *)
Lemma programs_loop_done_sentinel (s : stream) start end_date fuel :
  forall offset rc (w w' : world Env) n,
  programs_loop fuel s start end_date offset rc w = (w', Done n) ->
  exists k env_k env' data warnings,
    (k < fuel)%nat /\
    no_sentinel_pages k s start end_date offset (w_env w) = Some env_k /\
    request env_k "GET" "rest/asset/v1/programs.json" "programs"
      (programs_params (offset + 200 * Z.of_nat k) start end_date) = (env', Ok data) /\
    r_warnings data = Some warnings /\
    str_in NO_ASSET_MSG warnings = true.
Proof.
  induction fuel as [|fuel IH]; intros offset rc w w' n Hrun; simpl in Hrun; [done|].
  munfold. simpl in Hrun.
  destruct (request (w_env w) _ _ _ _) as [env1 [data|e]] eqn:Hreq; simpl in Hrun;
    [|done].
  unfold data_warnings, data_result in Hrun.
  destruct (r_warnings data) as [ws|] eqn:Hws; [|done].
  destruct (str_in NO_ASSET_MSG ws) eqn:Hsent.
  { exists 0%nat, (w_env w), env1, data, ws. simpl.
    replace (offset + 200 * Z.of_nat 0) with offset by lia.
    repeat split; auto with lia. }
  destruct (r_result data) as [rows|] eqn:Hrows; [|done].
  destruct (programs_rows s start rows rc _) as [w1 [rc1|e|]] eqn:Hrun1; [|done|done].
  pose proof (programs_rows_done_ok _ _ _ _ _ _ _ Hrun1) as Hok.
  apply programs_rows_grows in Hrun1 as (_ & _ & _ & Henv1 & _). simpl in Henv1.
  apply IH in Hrun as (k & env_k & env' & data' & ws' & Hk & Hpages & Hreq' & Hws' & Hs').
  exists (S k), env_k, env', data', ws'. repeat split; auto with lia.
  - simpl. rewrite Hreq, Hws, Hrows, Hsent, Hok. simpl. by rewrite <- Henv1.
  - rewrite <- Hreq'. do 2 f_equal. lia.
Qed.

(** Claim C9: [sync_programs] stops issuing requests exactly at the
    sentinel warning and by no count of rows.  After [k] responses without
    the sentinel, however many rows each holds (none included) as long as
    the rows are processed without an exception, the requests issued begin
    with those of offsets 0, 200, ..., 200 k; if the response to the last of
    these carries the sentinel, the run ends normally, these are all the
    requests, and the bookmark is set to the end of the query.  Conversely a
    run that ends normally has received the sentinel, in answer to the
    request that follows the pages without it. *)
Theorem programs_stops_exactly_at_sentinel (s : stream) fuel
    (w : world Env) env0 now :
  let start_date := state_get_bookmark (w_state w) "programs" "updatedAt" in
  let end_date := isoformat now in
  utcnow (w_env w) = (env0, now) ->
  (forall k env_k,
     no_sentinel_pages k s start_date end_date 0 env0 = Some env_k ->
     (k < fuel)%nat ->
     exists w' o evs more,
       sync_programs fuel s w = (w', o) /\
       w_out w' = (w_out w ++ evs)%list /\
       List.filter is_request evs
       = (map (programs_request start_date end_date) (seq 0 (S k)) ++ more)%list /\
       forall env' data warnings,
         request env_k "GET" "rest/asset/v1/programs.json" "programs"
           (programs_params (200 * Z.of_nat k) start_date end_date) = (env', Ok data) ->
         r_warnings data = Some warnings ->
         str_in NO_ASSET_MSG warnings = true ->
         (exists n, o = Done n) /\ more = [] /\ w_env w' = env' /\
         state_get_bookmark (w_state w') "programs" "updatedAt" = Some end_date) /\
  (forall w' n,
     sync_programs fuel s w = (w', Done n) ->
     exists k env_k env' data warnings,
       (k < fuel)%nat /\
       no_sentinel_pages k s start_date end_date 0 env0 = Some env_k /\
       request env_k "GET" "rest/asset/v1/programs.json" "programs"
         (programs_params (200 * Z.of_nat k) start_date end_date) = (env', Ok data) /\
       r_warnings data = Some warnings /\
       str_in NO_ASSET_MSG warnings = true).
Proof.
  intros start_date end_date Hnow. split.
  - intros k env_k Hpages Hfuel.
    by apply (programs_requests_until_sentinel s fuel k w env0 now env_k).
  - intros w' n Hrun. rewrite (sync_programs_run s fuel w env0 now Hnow) in Hrun.
    fold start_date end_date in Hrun.
    destruct (programs_loop _ _ _ _ _ _ _) as [w1 [rc|e|]] eqn:Hloop; [|done|done].
    apply programs_loop_done_sentinel in Hloop. simpl in Hloop. exact Hloop.
Qed.
End ProgramsProps.

Section OrchestratorProps.
Context {Lib : Library} {Env : Type} {Cli : Client Env}.

(** Claim C8: when waiting on the export job raises [ExportFailed],
    [sync_activities] writes [None] to the [export_id] and [export_end]
    bookmarks, persists the state and raises the same failure again; the
    client is not called again. *)
Theorem export_failed_clears_export (s : stream) rk fuel start_pen env1 job_started
    (w w1 : world Env) export_id env2 msg :
  s_replication_key s = Some rk ->
  pendulum_parse (of_bookmark (state_get_bookmark (w_state w) (s_stream s) rk))
    = Ok start_pen ->
  utcnow (w_env w) = (env1, job_started) ->
  dt_lt start_pen job_started = true ->
  get_or_create_export s {| w_env := env1; w_state := w_state w; w_out := w_out w |}
    = (w1, Done export_id) ->
  wait_for_export (w_env w1) "activities" (text_of export_id)
    = (env2, Err (ExportFailed msg)) ->
  let cleared := cleared_export (w_state w1) (s_stream s) in
  sync_activities (S fuel) s w
  = ({| w_env := env2; w_state := cleared;
        w_out := (w_out w1 ++ [WaitForExport "activities" (text_of export_id);
                               WriteState cleared])%list |},
     Raise (ExportFailed msg))
  /\ state_get_bookmark cleared (s_stream s) "export_id" = None
  /\ state_get_bookmark cleared (s_stream s) "export_end" = None.
Proof.
  intros Hs Hparse Hnow Hlt Hexport Hwait cleared. split.
  - unfold sync_activities, replication_key. rewrite Hs. munfold. simpl.
    rewrite Hparse. simpl. rewrite Hnow. simpl. rewrite Hlt.
    unfold bind at 1. rewrite Hexport.
    unfold bind at 1. unfold on_export_failed, client_wait_for_export. munfold. simpl.
    rewrite Hwait. subst cleared. unfold cleared_export. simpl.
    by rewrite <- app_assoc.
  - split; [apply cleared_export_id|apply cleared_export_end].
Qed.

(** Claim C4, amended: a selected stream that the resume marker does not
    skip and whose name matches no strategy makes the orchestrator raise at
    once, without any client call; by then it has set the currently-syncing
    marker to that stream and persisted the state, and the bookmarks are
    untouched. *)
Theorem unrecognized_stream_is_fatal (s : stream) fuel rest starting (w : world Env) :
  flag (sch_selected (s_schema s)) = true ->
  (truthy starting && negb (bool_decide (Some (s_stream s) = starting)))%bool = false ->
  String.eqb (s_stream s) "activity_types" = false ->
  startswith "activities_" (s_stream s) = false ->
  str_in (s_stream s) ["campaigns"; "lists"] = false ->
  String.eqb (s_stream s) "programs" = false ->
  let st := state_set_currently_syncing (w_state w) (Some (s_stream s)) in
  sync_streams fuel (s :: rest) starting w
  = ({| w_env := w_env w; w_state := st;
        w_out := (w_out w ++ [LogInfo (s_stream s ++ ": starting sync");
                              WriteState st])%list |},
     Raise (PyException ("Stream " ++ s_stream s ++ " not implemented")))
  /\ bookmarks st = bookmarks (w_state w).
Proof.
  intros Hsel Hskip H1 H2 H3 H4 st. split; [|done].
  simpl. rewrite Hsel, Hskip. simpl.
  unfold sync_stream, dispatch. rewrite H1, H2, H3, H4. munfold. simpl.
  by rewrite <- app_assoc.
Qed.

(** *** What a computation writes *)


Lemma emits_only_silent {A} P (m : M Env A) :
  (forall w, w_out (fst (m w)) = w_out w) -> emits_only P m.
Proof.
  intros Hm w w' o Hrun. exists []. specialize (Hm w). rewrite Hrun in Hm.
  simpl in Hm. by rewrite app_nil_r.
Qed.

Lemma emits_only_bind {A B} P (m : M Env A) (k : A -> M Env B) :
  emits_only P m -> (forall a, emits_only P (k a)) -> emits_only P (bind m k).
Proof.
  intros Hm Hk w w' o Hrun. unfold bind in Hrun.
  destruct (m w) as [w1 [a|e|]] eqn:Hm1; destruct (Hm _ _ _ Hm1) as (evs1 & Hout1 & HP1).
  - destruct (Hk a _ _ _ Hrun) as (evs2 & Hout2 & HP2).
    exists (evs1 ++ evs2)%list. rewrite Hout2, Hout1, <- app_assoc, forallb_app, HP1, HP2.
    done.
  - inversion Hrun; subst. eauto.
  - inversion Hrun; subst. eauto.
Qed.

Lemma emits_only_emit P e : P e = true -> emits_only P (emit (Env := Env) e).
Proof.
  intros HP w w' o Hrun. unfold emit in Hrun. inversion Hrun; subst. simpl.
  exists [e]. simpl. by rewrite HP.
Qed.

Lemma emits_only_lift {A} P (r : result A) : emits_only P (lift (Env := Env) r).
Proof. apply emits_only_silent. by destruct r. Qed.

Lemma emits_only_call {A} P (op : Env -> Env * A) : emits_only P (call op).
Proof. apply emits_only_silent. intros w. unfold call. by destruct (op (w_env w)). Qed.

Lemma emits_only_if {A} P (b : bool) (m1 m2 : M Env A) :
  emits_only P m1 -> emits_only P m2 -> emits_only P (if b then m1 else m2).
Proof. by destruct b. Qed.

Lemma emits_only_weaken {A} (P Q : event -> bool) (m : M Env A) :
  (forall e, P e = true -> Q e = true) -> emits_only P m -> emits_only Q m.
Proof.
  intros HPQ Hm w w' o Hrun. destruct (Hm _ _ _ Hrun) as (evs & Hout & HP).
  exists evs. split; [done|]. rewrite forallb_forall in *. auto.
Qed.

End OrchestratorProps.

Ltac emits_step :=
  first
    [ apply emits_only_bind; [|intros ?]
    | apply emits_only_lift
    | apply emits_only_call
    | apply emits_only_emit; simpl
    | apply emits_only_if
    | apply emits_only_silent; intros ?; reflexivity ].


Section PaginatedEvents.
Context {Lib : Library} {Env : Type} {Cli : Client Env}.

Lemma paginated_rows_emits (s : stream) rk start rows :
  forall n mb,
  emits_only (Env := Env) (paginated_event (s_stream s))
    (paginated_rows s rk start rows n mb).
Proof.
  induction rows as [|r rest IH]; intros n mb; simpl.
  - apply emits_only_silent. done.
  - repeat emits_step; unfold write_record, get_bookmark; repeat emits_step;
      try apply String.eqb_refl; apply IH.
Qed.

Lemma client_request_emits P method endpoint name params :
  P (Request method endpoint name params) = true ->
  emits_only P (client_request (Env := Env) method endpoint name params).
Proof. intros HP. unfold client_request. repeat emits_step. done. Qed.

Lemma write_state_emits P :
  (forall st, P (WriteState st) = true) -> emits_only P (write_state (Env := Env)).
Proof. intros HP. unfold write_state. repeat emits_step. apply HP. Qed.

Lemma paginated_loop_emits (s : stream) rk start fuel :
  forall params n mb,
  emits_only (Env := Env) (paginated_event (s_stream s))
    (paginated_loop fuel s rk start params n mb).
Proof.
  induction fuel as [|fuel IH]; intros params n mb; simpl.
  - apply emits_only_silent. done.
  - apply emits_only_bind; [apply client_request_emits, String.eqb_refl|intros data].
    apply emits_only_bind; [apply emits_only_lift|intros rows].
    apply emits_only_bind; [apply paginated_rows_emits|intros [n1 mb1]].
    destruct (r_nextPageToken data) as [tok|]; [|by apply emits_only_silent].
    apply emits_only_bind; [by apply emits_only_silent|intros _].
    apply emits_only_bind; [by apply write_state_emits|intros _].
    apply IH.
Qed.

Lemma sync_paginated_emits (s : stream) fuel :
  emits_only (Env := Env) (paginated_event (s_stream s)) (sync_paginated fuel s).
Proof.
  unfold sync_paginated.
  apply emits_only_bind; [apply emits_only_lift|intros rk].
  apply emits_only_bind; [by apply emits_only_silent|intros start].
  apply emits_only_bind; [by apply emits_only_silent|intros tok].
  apply emits_only_bind; [apply paginated_loop_emits|intros [n mb]].
  apply emits_only_bind; [by apply emits_only_silent|intros _].
  apply emits_only_bind; [by apply emits_only_silent|intros _].
  apply emits_only_bind; [by apply write_state_emits|intros _].
  by apply emits_only_silent.
Qed.

End PaginatedEvents.

Section CursorProps.
Context {Lib : Library} {Env : Type} {Cli : Client Env}.

Lemma programs_loop_state (s : stream) start end_date fuel :
  forall offset rc (w w' : world Env) o,
  programs_loop fuel s start end_date offset rc w = (w', o) ->
  w_state w' = w_state w.
Proof.
  induction fuel as [|fuel IH]; intros offset rc w w' o Hrun; simpl in Hrun.
  - munfold. by inversion Hrun.
  - munfold. simpl in Hrun.
    destruct (request _ _ _ _ _) as [env [data|e]]; simpl in Hrun;
      [|by inversion Hrun].
    destruct (data_warnings data) as [ws|e]; [|by inversion Hrun].
    destruct (str_in NO_ASSET_MSG ws); [by inversion Hrun|].
    destruct (data_result data) as [rows|e]; [|by inversion Hrun].
    destruct (programs_rows s start rows rc _) as [w1 [rc1|e|]] eqn:Hrows;
      apply programs_rows_grows in Hrows as (_ & _ & _ & _ & Hst); simpl in Hst.
    + apply IH in Hrun. congruence.
    + inversion Hrun; subst. done.
    + inversion Hrun; subst. done.
Qed.


Lemma activity_types_rows_state (s : stream) rows :
  forall rc (w w' : world Env) o,
  activity_types_rows s rows rc w = (w', o) -> w_state w' = w_state w.
Proof.
  induction rows as [|r rest IH]; intros rc w w' o Hrun; simpl in Hrun.
  - munfold. by inversion Hrun.
  - munfold. destruct (format_values s r) as [rec|e]; [|by inversion Hrun].
    simpl in Hrun. by apply IH in Hrun.
Qed.

Lemma sync_activity_types_state (s : stream) (w w' : world Env) o :
  sync_activity_types s w = (w', o) -> w_state w' = w_state w.
Proof.
  unfold sync_activity_types. munfold. simpl.
  destruct (request _ _ _ _ _) as [env [data|e]]; simpl; [|by intros [= <- _]].
  destruct (data_result data) as [rows|e]; [|by intros [= <- _]].
  intros Hrun. by apply activity_types_rows_state in Hrun.
Qed.



End CursorProps.

Section ResumeProps.
Context {Lib : Library} {Env : Type} {Cli : Client Env}.


Lemma bind_assoc {A B C} (m : M Env A) (k : A -> M Env B) (h : B -> M Env C) w :
  bind (bind m k) h w = bind m (fun a => bind (k a) h) w.
Proof. unfold bind. by destruct (m w) as [w1 [a|e|]]. Qed.

Lemma bind_log {A} msg (k : unit -> M Env A) w :
  bind (log_info msg) k w
  = k tt {| w_env := w_env w; w_state := w_state w;
            w_out := (w_out w ++ [LogInfo msg])%list |}.
Proof. reflexivity. Qed.

Lemma sync_stream_paginated_emits (s : stream) fuel :
  str_in (s_stream s) ["campaigns"; "lists"] = true ->
  emits_only (Env := Env) not_activity_types
    (let! record_count := dispatch fuel s in
     let! _ := emit (RecordCount (s_stream s) record_count) in
     let! _ := set_currently_syncing None in
     let! _ := write_state in
     log_info (s_stream s ++ ": finished sync")).
Proof.
  intros Hname.
  assert (Hne : String.eqb (s_stream s) "activity_types" = false).
  { simpl in Hname. rewrite orb_false_r in Hname.
    apply orb_prop in Hname as [->%String.eqb_eq| ->%String.eqb_eq]; done. }
  assert (Hact : startswith "activities_" (s_stream s) = false).
  { simpl in Hname. rewrite orb_false_r in Hname.
    apply orb_prop in Hname as [->%String.eqb_eq| ->%String.eqb_eq]; done. }
  unfold dispatch. rewrite Hne, Hact, Hname.
  apply emits_only_bind.
  { eapply emits_only_weaken; [|apply sync_paginated_emits].
    intros [] He; try done; unfold not_activity_types; simpl in *;
      apply String.eqb_eq in He; subst; by rewrite Hne. }
  intros rc. apply emits_only_bind.
  { apply emits_only_emit. unfold not_activity_types. simpl. by rewrite Hne. }
  intros _. apply emits_only_bind; [by apply emits_only_silent|intros _].
  apply emits_only_bind; [by apply write_state_emits|intros _].
  apply emits_only_emit. unfold not_activity_types. simpl.
  simpl in Hname. rewrite orb_false_r in Hname.
  apply orb_prop in Hname as [->%String.eqb_eq| ->%String.eqb_eq]; done.
Qed.

(** Claim C5: resumed with the marker on [campaigns] and the catalog
    [activity_types; campaigns; lists], all selected, [sync] only logs that
    [activity_types] is already synced, then syncs [campaigns] and after it
    [lists]; nothing it writes after the start of [campaigns] concerns
    [activity_types]. *)
Theorem resume_skips_to_marked_stream (activity_types campaigns lists : stream)
    fuel (w : world Env) :
  s_stream activity_types = "activity_types" ->
  s_stream campaigns = "campaigns" ->
  s_stream lists = "lists" ->
  flag (sch_selected (s_schema activity_types)) = true ->
  flag (sch_selected (s_schema campaigns)) = true ->
  flag (sch_selected (s_schema lists)) = true ->
  currently_syncing (w_state w) = Some "campaigns" ->
  sync fuel [activity_types; campaigns; lists] w
  = (let! _ := log_info "Resuming sync from campaigns" in
     let! _ := log_info "activity_types: already synced" in
     let! _ := sync_stream fuel campaigns in
     let! _ := sync_stream fuel lists in
     let! _ := log_info "Finished sync" in
     let! corona := read_env use_corona in
     if negb corona then log_warning NO_CORONA_WARNING else ret tt) w
  /\ exists w' o evs,
       sync fuel [activity_types; campaigns; lists] w = (w', o) /\
       w_out w'
       = (w_out w ++ LogInfo "Resuming sync from campaigns"
                  :: LogInfo "activity_types: already synced"
                  :: LogInfo "campaigns: starting sync" :: evs)%list /\
       forallb not_activity_types evs = true.
Proof.
  intros Ha Hc Hl Hsa Hsc Hsl Hmark.
  assert (Heq : sync fuel [activity_types; campaigns; lists] w
    = (let! _ := log_info "Resuming sync from campaigns" in
       let! _ := log_info "activity_types: already synced" in
       let! _ := sync_stream fuel campaigns in
       let! _ := sync_stream fuel lists in
       let! _ := log_info "Finished sync" in
       let! corona := read_env use_corona in
       if negb corona then log_warning NO_CORONA_WARNING else ret tt) w).
  { unfold sync. simpl. rewrite Hsa, Hsc, Hsl, Ha, Hc, Hl. munfold. simpl.
    rewrite Hmark. simpl.
    destruct (sync_stream fuel campaigns _) as [w1 [[]|e|]]; [|done|done].
    destruct (sync_stream fuel lists _) as [w2 [[]|e|]]; done. }
  split; [exact Heq|]. rewrite Heq.
  set (finish :=
         let! _ := log_info "Finished sync" in
         let! corona := read_env use_corona in
         if negb corona then log_warning NO_CORONA_WARNING else ret tt).
  set (started := fun s : stream =>
         let! _ := set_currently_syncing (Some (s_stream s)) in
         let! _ := write_state in
         let! record_count := dispatch fuel s in
         let! _ := emit (RecordCount (s_stream s) record_count) in
         let! _ := set_currently_syncing None in
         let! _ := write_state in
         log_info (s_stream s ++ ": finished sync")).
  set (w3 := {| w_env := w_env w; w_state := w_state w;
                w_out := (w_out w ++ [LogInfo "Resuming sync from campaigns";
                                      LogInfo "activity_types: already synced";
                                      LogInfo "campaigns: starting sync"])%list |}).
  set (rest := let! _ := started campaigns in
               let! _ := sync_stream fuel lists in finish).
  assert (Hrest : emits_only not_activity_types rest).
  { assert (Hstarted : forall s, str_in (s_stream s) ["campaigns"; "lists"] = true ->
              emits_only not_activity_types (started s)).
    { intros s Hname. unfold started.
      apply emits_only_bind; [by apply emits_only_silent|intros _].
      apply emits_only_bind; [by apply write_state_emits|intros _].
      by apply sync_stream_paginated_emits. }
    unfold rest. apply emits_only_bind; [apply Hstarted; by rewrite Hc|intros _].
    apply emits_only_bind.
    { unfold sync_stream. apply emits_only_bind.
      - apply emits_only_emit. by rewrite Hl.
      - intros _. apply (Hstarted lists). by rewrite Hl. }
    intros _. unfold finish.
    apply emits_only_bind; [by apply emits_only_emit|intros _].
    apply emits_only_bind; [by apply emits_only_silent|intros corona].
    apply emits_only_if; [by apply emits_only_emit|by apply emits_only_silent]. }
  destruct (rest w3) as [w' o] eqn:Hrun.
  destruct (Hrest _ _ _ Hrun) as (evs & Hout & Hevs).
  exists w', o, evs. split; [|split; [|done]].
  - rewrite <- Hrun. rewrite !bind_log.
    change (sync_stream fuel campaigns)
      with (let! _ := log_info (s_stream campaigns ++ ": starting sync") in
            started campaigns).
    rewrite bind_assoc, bind_log. simpl w_out. rewrite Hc, <- !app_assoc.
    reflexivity.
  - rewrite Hout. unfold w3. simpl. by rewrite <- app_assoc.
Qed.
End ResumeProps.

(** ** The properties on concrete runs *)

Section Runs.
Import Fixture Scenario.

(** Claim C1 (what the code does instead): a campaigns page holds a row
    updated in June 2017, after the cursor of January 2017.  The row is
    written, yet the bookmark that [sync_paginated] stores at the end is
    the starting cursor, not the June value: [max_bookmark] is compared
    with the bookmark re-read from the state, which nothing has changed. *)
Theorem paginated_bookmark_stays_at_start :
  let run := run_paginated 5 (asset_stream "campaigns") campaigns_world in
  snd run = Done 1 /\
  List.filter is_record (w_out (fst run)) = [WriteRecord "campaigns" welcome_record] /\
  welcome_record !! "updatedAt" = Some (VStr june) /\
  String.ltb t2017 june = true /\
  state_get_bookmark (w_state campaigns_world) "campaigns" "updatedAt" = Some t2017 /\
  state_get_bookmark (w_state (fst run)) "campaigns" "updatedAt" = Some t2017.
Proof. repeat split; vm_compute; reflexivity. Qed.

(** Claim C2 (what the code does instead): with no [export_id]
    bookmarked, [get_or_create_export] stops at the read of the unbound
    name [start_pen]; no export is requested and the state is as before. *)
Theorem get_or_create_export_unbound_name :
  state_get_bookmark (w_state backlog_world) "activities_1" "export_id" = None /\
  @get_or_create_export library env client activity_stream backlog_world
  = (backlog_world, Raise (NameError "start_pen")).
Proof. split; vm_compute; reflexivity. Qed.

(** Claim C3 (what the code does instead): with a cursor 65 days before
    the clock, [sync_activities] enters its loop and fails in the first
    [get_or_create_export]; it requests no export job at all. *)
Theorem sync_activities_backlog_creates_no_export (fuel : nat) :
  parse (VStr august) = Ok (at_seconds (today_seconds - 65 * 86400)) /\
  run_activities (S fuel) activity_stream backlog_world
  = (backlog_world, Raise (NameError "start_pen")) /\
  List.filter is_create_export (w_out backlog_world) = [].
Proof. repeat split; vm_compute; reflexivity. Qed.

(** Claim C4, refuted as stated: the unrecognized stream [leads] aborts
    the run, but the state has changed by then. *)
Lemma unrecognized_stream_mutates_state :
  let run := run_sync 5 [asset_stream "leads"] leads_world in
  snd run = Raise (PyException "Stream leads not implemented") /\
  currently_syncing (w_state leads_world) = None /\
  currently_syncing (w_state (fst run)) = Some "leads" /\
  w_state (fst run) <> w_state leads_world.
Proof.
  repeat split; try (vm_compute; reflexivity).
  intros Heq. apply (f_equal currently_syncing) in Heq. vm_compute in Heq.
  discriminate Heq.
Qed.

(** The amended property on the catalog that holds only [leads]. *)
Lemma unrecognized_stream_is_fatal_witness :
  let st := state_set_currently_syncing (w_state leads_world) (Some "leads") in
  @sync_streams library env client 5 [asset_stream "leads"] None leads_world
  = ({| w_env := w_env leads_world; w_state := st;
        w_out := [LogInfo "leads: starting sync"; WriteState st] |},
     Raise (PyException "Stream leads not implemented"))
  /\ bookmarks st = bookmarks (w_state leads_world).
Proof.
  apply (@unrecognized_stream_is_fatal library env client
           (asset_stream "leads") 5 [] None leads_world); reflexivity.
Defined.

(** The resumed run on the fixture, with one empty page per stream. *)
Lemma resume_skips_to_marked_stream_witness :
  exists w' o evs,
    run_sync 5 [activity_types_stream; asset_stream "campaigns"; asset_stream "lists"]
      resumed_world = (w', o) /\
    w_out w'
    = LogInfo "Resuming sync from campaigns"
        :: LogInfo "activity_types: already synced"
        :: LogInfo "campaigns: starting sync" :: evs /\
    forallb not_activity_types evs = true.
Proof.
  apply (proj2 (@resume_skips_to_marked_stream library env client
                  activity_types_stream (asset_stream "campaigns")
                  (asset_stream "lists") 5 resumed_world
                  eq_refl eq_refl eq_refl eq_refl eq_refl eq_refl eq_refl)).
Defined.




(** A resumed export whose job fails while the tap waits for it. *)
Lemma export_failed_clears_export_witness :
  let cleared := cleared_export (w_state failing_world) "activities_1" in
  run_activities 1 activity_stream failing_world
  = ({| w_env := w_env failing_world; w_state := cleared;
        w_out := [WaitForExport "activities" "export-7"; WriteState cleared] |},
     Raise (ExportFailed "export job failed"))
  /\ state_get_bookmark cleared "activities_1" "export_id" = None
  /\ state_get_bookmark cleared "activities_1" "export_end" = None.
Proof.
  apply (@export_failed_clears_export library env client activity_stream
           "activityDate" 0 (at_seconds 1788134400) (w_env failing_world)
           (at_seconds today_seconds) failing_world failing_world
           (Some "export-7") (w_env failing_world) "export job failed");
    vm_compute; reflexivity.
Defined.

(** Three responses: a page of one row, an empty page, the sentinel.  The
    empty page does not end the requests; the sentinel does. *)
Lemma programs_stops_exactly_at_sentinel_witness :
  let w := programs_world t2017 in
  no_sentinel_pages (Lib := library) (Cli := client) 2 (asset_stream "programs")
    (Some t2017) today 0 (w_env w)
  = Some (quiet today_seconds [no_assets]) /\
  (exists w' o evs more,
     run_programs 5 (asset_stream "programs") w = (w', o) /\
     w_out w' = evs /\
     List.filter is_request evs
     = (map (programs_request (Some t2017) today) [0; 1; 2]%nat ++ more)%list /\
     forall env' data warnings,
       request (Client := client) (quiet today_seconds [no_assets])
         "GET" "rest/asset/v1/programs.json"
         "programs" (programs_params 400 (Some t2017) today) = (env', Ok data) ->
       r_warnings data = Some warnings ->
       str_in NO_ASSET_MSG warnings = true ->
       (exists n, o = Done n) /\ more = [] /\ w_env w' = env' /\
       state_get_bookmark (w_state w') "programs" "updatedAt" = Some today) /\
  (exists k env_k env' data warnings,
     (k < 5)%nat /\
     no_sentinel_pages (Lib := library) (Cli := client) k (asset_stream "programs")
       (Some t2017) today 0 (w_env w) = Some env_k /\
     request (Client := client) env_k "GET" "rest/asset/v1/programs.json" "programs"
       (programs_params (200 * Z.of_nat k) (Some t2017) today) = (env', Ok data) /\
     r_warnings data = Some warnings /\
     str_in NO_ASSET_MSG warnings = true).
Proof.
  intros w.
  assert (Hpages : no_sentinel_pages (Lib := library) (Cli := client) 2
                     (asset_stream "programs") (Some t2017) today 0 (w_env w)
                   = Some (quiet today_seconds [no_assets]))
    by (vm_compute; reflexivity).
  destruct (@programs_stops_exactly_at_sentinel library env client
              (asset_stream "programs") 5 w (w_env w) (at_seconds today_seconds)
              eq_refl) as [Hreqs Hdone].
  split; [exact Hpages|]. split.
  - exact (Hreqs 2%nat (quiet today_seconds [no_assets]) Hpages ltac:(lia)).
  - apply (Hdone (fst (run_programs 5 (asset_stream "programs") w)) 1).
    vm_compute. reflexivity.
Defined.

(** A row without [name] and with the unselected [description]: the record
    has [name] as [None] and no [description]. *)
Lemma format_values_selected_fields_witness :
  @format_values library (asset_stream "campaigns") partial_row = Ok partial_record /\
  (forall f, is_Some (partial_record !! f)
             <-> marked_selected (sch_properties asset_schema) f = true) /\
  (forall f, marked_selected (sch_properties asset_schema) f = true ->
             partial_row !! f = None -> partial_record !! f = Some VNone).
Proof.
  assert (Hrun : @format_values library (asset_stream "campaigns") partial_row
                 = Ok partial_record) by (vm_compute; reflexivity).
  split; [exact Hrun|].
  exact (@format_values_selected_fields library (asset_stream "campaigns")
           partial_row partial_record Hrun).
Defined.

End Runs.

Section FormatterFurther.
Context {Lib : Library}.

Lemma format_value_stable v sch v' :
  formats_are_stable ->
  format_value v sch = Ok v' -> format_value v' sch = Ok v'.
Proof.
  intros (Hint & Hfloat & Hdate). unfold format_value.
  destruct (fs_type sch) as [ty|]; [|done].
  destruct (is_none_or_empty v) eqn:Hv; [by intros [= <-]|].
  destruct (bool_decide (fs_format sch = Some "date-time")).
  { destruct (pendulum_parse v) as [d|e] eqn:Hd; simpl; [|done]. intros [= <-].
    destruct (Hdate v d Hd) as (Hne & d' & Hd' & Hsame). simpl.
    destruct (String.eqb_spec (isoformat d) EmptyString) as [He|_]; [done|].
    rewrite Hd'. simpl. by rewrite Hsame. }
  destruct (str_in "integer" _).
  { destruct (py_int v) as [n|e]; simpl; [|done]. intros [= <-]. simpl.
    by rewrite Hint. }
  destruct (str_in "number" _).
  { destruct (py_float v) as [f|e]; simpl; [|done]. intros [= <-]. simpl.
    by rewrite Hfloat. }
  destruct (str_in "boolean" _).
  { destruct v; try done; by intros [= <-]. }
  intros [= <-]. by rewrite Hv.
Qed.

Lemma format_fields_same_values props (r1 r2 rtn : gmap string pyval) :
  (forall f sch, (f, sch) ∈ props -> flag (fs_selected sch) = true ->
     format_value (row_get r2 f) sch = format_value (row_get r1 f) sch) ->
  format_fields props r2 rtn = format_fields props r1 rtn.
Proof.
  revert rtn. induction props as [|[g sch] rest IH]; intros rtn Hsame; simpl; [done|].
  destruct (flag (fs_selected sch)) eqn:Hsel; simpl.
  - rewrite (Hsame g sch) by (done || apply elem_of_cons; by left).
    destruct (format_value (row_get r1 g) sch); simpl; [|done].
    apply IH. intros f s Hin. apply Hsame. apply elem_of_cons. by right.
  - apply IH. intros f s Hin. apply Hsame. apply elem_of_cons. by right.
Qed.

Lemma marked_selected_absent props f :
  f ∉ map fst props -> marked_selected props f = false.
Proof.
  induction props as [|[g sch] rest IH]; simpl; [done|]. intros Hnot.
  apply not_elem_of_cons in Hnot as [Hne Hrest]. rewrite IH by done.
  destruct (String.eqb_spec g f); [congruence|done].
Qed.

Lemma format_fields_value props (r : gmap string pyval) : forall rtn rec f sch,
  NoDup (map fst props) ->
  format_fields props r rtn = Ok rec ->
  (f, sch) ∈ props -> flag (fs_selected sch) = true ->
  exists v, format_value (row_get r f) sch = Ok v /\ rec !! f = Some v.
Proof.
  induction props as [|[g s] rest IH]; intros rtn rec f sch Hnd Hrun Hin Hsel;
    [by apply elem_of_nil in Hin|].
  simpl in Hnd. apply NoDup_cons in Hnd as [Hg Hnd]. simpl in Hrun.
  apply elem_of_cons in Hin as [[= -> ->]|Hin].
  - rewrite Hsel in Hrun. simpl in Hrun.
    destruct (format_value (row_get r g) s) as [v|e]; simpl in Hrun; [|done].
    exists v. split; [done|].
    destruct (format_fields_spec _ _ _ _ Hrun) as [Hkeep _].
    rewrite Hkeep by by apply marked_selected_absent.
    apply lookup_insert_eq.
  - destruct (flag (fs_selected s)); simpl in Hrun.
    + destruct (format_value (row_get r g) s) as [v|e]; simpl in Hrun; [|done].
      by eapply IH.
    + by eapply IH.
Qed.

(** Formatting a record that [format_values] produced gives the record
    back. *)
Theorem format_values_idempotent (s : stream) (r rec : gmap string pyval) :
  formats_are_stable ->
  NoDup (map fst (sch_properties (s_schema s))) ->
  format_values s r = Ok rec ->
  format_values s rec = Ok rec.
Proof.
  intros Hlaws Hnd Hrun. unfold format_values in *. rewrite <- Hrun.
  apply format_fields_same_values. intros f sch Hin Hsel.
  destruct (format_fields_value _ _ _ _ _ _ Hnd Hrun Hin Hsel) as (v & Hv & Hrec).
  unfold row_get at 1. rewrite Hrec. simpl. rewrite Hv.
  by apply format_value_stable with (v := row_get r f).
Qed.

Lemma format_fields_untyped props (r rtn : gmap string pyval) :
  selected_typed props = false -> exists e, format_fields props r rtn = Err e.
Proof.
  revert rtn. induction props as [|[g sch] rest IH]; intros rtn; simpl; [done|].
  destruct (flag (fs_selected sch)) eqn:Hsel; simpl.
  - destruct (fs_type sch) as [ty|] eqn:Hty.
    + rewrite bool_decide_eq_true_2 by eauto. simpl. intros Hrest.
      destruct (format_value _ _); simpl; eauto.
    + intros _. unfold format_value. rewrite Hty. simpl. eauto.
  - intros Hrest. by apply IH.
Qed.

Lemma format_fields_empty_row props (rtn : gmap string pyval) :
  selected_typed props = true ->
  exists rec, format_fields props ∅ rtn = Ok rec /\
    forall f, rec !! f = if marked_selected props f then Some VNone else rtn !! f.
Proof.
  revert rtn. induction props as [|[g sch] rest IH]; intros rtn; simpl; [eauto|].
  destruct (flag (fs_selected sch)) eqn:Hsel; simpl.
  - destruct (fs_type sch) as [ty|] eqn:Hty.
    2:{ rewrite bool_decide_eq_false_2; [done|]. by intros [? ?]. }
    intros Hrest. unfold format_value, row_get. rewrite Hty, lookup_empty. simpl.
    destruct (IH (<[g := VNone]> rtn) Hrest) as (rec & -> & Hrec).
    exists rec. split; [done|]. intros f. rewrite Hrec, andb_true_r.
    destruct (marked_selected rest f); [by rewrite orb_true_r|]. rewrite orb_false_r.
    destruct (String.eqb_spec g f) as [->|Hne].
    + apply lookup_insert_eq.
    + by apply lookup_insert_ne.
  - intros Hrest. destruct (IH rtn Hrest) as (rec & -> & Hrec).
    exists rec. split; [done|]. intros f. by rewrite Hrec, andb_false_r.
Qed.

(** An empty row is formatted to the record of [None]s exactly when every
    selected field schema has a [type]; when one has none, no row at all is
    formatted. *)
Theorem format_values_needs_types (s : stream) :
  let props := sch_properties (s_schema s) in
  if selected_typed props
  then exists rec, format_values s ∅ = Ok rec /\
         forall f, rec !! f = if marked_selected props f then Some VNone else None
  else forall r, exists e, format_values s r = Err e.
Proof.
  intros props. destruct (selected_typed props) eqn:Htyped.
  - destruct (format_fields_empty_row props ∅ Htyped) as (rec & Hrun & Hrec).
    exists rec. split; [done|]. intros f. rewrite Hrec.
    by destruct (marked_selected props f).
  - intros r. by apply format_fields_untyped.
Qed.

End FormatterFurther.

Section AliasLookup.
Context {Lib : Library}.
Local Arguments str_in : simpl never.

Lemma alias_primary_lookup props (r : gmap string pyval) : forall rtn rtn' k,
  alias_primary props r rtn = Ok rtn' ->
  rtn' !! k
  = if existsb
         (fun p => String.eqb (fst p) k
                   && bool_decide (fs_inclusion (snd p) = Some "automatic")
                   && negb (str_in (fst p) ACTIVITY_FIELDS))%bool props
    then r !! "primaryAttributeValue" else rtn !! k.
Proof.
  induction props as [|[g sch] rest IH]; intros rtn rtn' k Hrun; simpl in *.
  - by inversion Hrun.
  - destruct (fs_inclusion sch) as [inc|] eqn:Hinc; [|done].
    destruct (String.eqb_spec inc "automatic") as [->|Hne]; simpl in Hrun.
    + rewrite bool_decide_eq_true_2 by done.
      destruct (str_in g ACTIVITY_FIELDS) eqn:Hact; simpl in Hrun.
      * rewrite (IH _ _ k Hrun). by rewrite andb_false_r.
      * unfold dict_item in Hrun.
        destruct (r !! "primaryAttributeValue") as [v|] eqn:Hv; simpl in Hrun; [|done].
        rewrite (IH _ _ k Hrun), !andb_true_r.
        destruct (existsb _ rest); [by rewrite orb_true_r|]. rewrite orb_false_r.
        destruct (String.eqb_spec g k) as [->|Hgk].
        -- apply lookup_insert_eq.
        -- by apply lookup_insert_ne.
    + rewrite bool_decide_eq_false_2 by congruence.
      rewrite (IH _ _ k Hrun). by rewrite andb_false_r.
Qed.

Lemma is_alias_activity_field (sch : schema) k :
  str_in k ACTIVITY_FIELDS = true -> is_alias sch k = false.
Proof.
  intros Hk. unfold is_alias. induction (sch_properties sch) as [|[g s] rest IH];
    simpl; [done|].
  rewrite IH, orb_false_r. destruct (String.eqb_spec g k) as [->|]; [|done].
  by rewrite Hk, andb_false_r.
Qed.

End AliasLookup.

Section FlattenerFurther.
Context {Lib : Library}.

Lemma normalized_char_not_upper (c : ascii) :
  is_upper (if Ascii.eqb (ascii_lower c) " "%char then "_"%char else ascii_lower c)
  = false.
Proof. destruct c as [[] [] [] [] [] [] [] []]; reflexivity. Qed.

Lemma normalized_no_upper (key : string) :
  has_upper (replace_space (lower key)) = false.
Proof.
  induction key as [|c r IH]; simpl; [done|].
  by rewrite normalized_char_not_upper, IH.
Qed.

Lemma attr_lookup_upper attrs k :
  has_upper k = true -> attr_lookup attrs k = None.
Proof.
  intros Hk. induction attrs as [|[key value] rest IH]; simpl; [done|].
  rewrite IH. destruct (String.eqb_spec (replace_space (lower key)) k) as [<-|]; [|done].
  by rewrite normalized_no_upper in Hk.
Qed.

Lemma expand_attrs_lookup attrs : forall (rtn : gmap string pyval) k,
  expand_attrs attrs rtn !! k
  = match attr_lookup attrs k with
    | Some v => Some v
    | None => rtn !! k
    end.
Proof.
  induction attrs as [|[key value] rest IH]; intros rtn k; simpl; [done|].
  rewrite IH. destruct (attr_lookup rest k); [done|].
  destruct (String.eqb_spec (replace_space (lower key)) k) as [<-|Hne].
  - apply lookup_insert_eq.
  - by apply lookup_insert_ne.
Qed.

Lemma copy_fields_lookup fields (r : gmap string pyval) : forall rtn rtn',
  copy_fields fields r rtn = Ok rtn' ->
  (forall f, str_in f fields = true -> is_Some (r !! f)) /\
  (forall k, rtn' !! k = if str_in k fields then r !! k else rtn !! k).
Proof.
  induction fields as [|g rest IH]; intros rtn rtn' Hrun; simpl in *.
  - inversion Hrun; subst. split; [done|done].
  - unfold dict_item in Hrun. destruct (r !! g) as [v|] eqn:Hv; simpl in Hrun; [|done].
    destruct (IH _ _ Hrun) as [Hpresent Hlook]. split.
    + intros f [Hf|Hf]%orb_prop; [|by apply Hpresent].
      apply String.eqb_eq in Hf as ->. by rewrite Hv.
    + intros k. rewrite Hlook. destruct (str_in k rest) eqn:Hrest.
      * by rewrite orb_true_r.
      * rewrite orb_false_r. destruct (String.eqb_spec k g) as [->|Hne].
        -- by rewrite lookup_insert_eq.
        -- by rewrite lookup_insert_ne.
Qed.

Lemma flatten_activity_spec (r : gmap string pyval) (sch : schema) rtn :
  flatten_activity r sch = Ok rtn ->
  (forall f, str_in f BASE_ACTIVITY_FIELDS = true -> is_Some (r !! f)) /\
  exists attrs,
    row_attrs r = Ok attrs /\
    forall k,
      rtn !! k
      = match attr_lookup attrs k with
        | Some v => Some v
        | None =>
            if is_alias sch k then r !! "primaryAttributeValue"
            else if str_in k BASE_ACTIVITY_FIELDS then r !! k else None
        end.
Proof.
  unfold flatten_activity, row_attrs. intros Hrun.
  destruct (copy_fields BASE_ACTIVITY_FIELDS r ∅) as [rtn1|e] eqn:Hcopy; simpl in Hrun;
    [|done].
  destruct (alias_primary (sch_properties sch) r rtn1) as [rtn2|e] eqn:Halias;
    simpl in Hrun; [|done].
  destruct (copy_fields_lookup _ _ _ _ Hcopy) as [Hpresent Hbase].
  split; [exact Hpresent|].
  assert (Hrtn2 : forall k, rtn2 !! k
            = if is_alias sch k then r !! "primaryAttributeValue"
              else if str_in k BASE_ACTIVITY_FIELDS then r !! k else None).
  { intros k. rewrite (alias_primary_lookup _ _ _ _ k Halias). unfold is_alias.
    destruct (existsb _ _); [done|]. rewrite Hbase. by rewrite lookup_empty. }
  destruct (r !! "attributes") as [a|].
  - destruct (json_loads a) as [attrs|e]; simpl in Hrun; [|done].
    inversion Hrun; subst. exists attrs. split; [done|]. intros k.
    by rewrite expand_attrs_lookup, Hrtn2.
  - inversion Hrun; subst. exists []. split; [done|]. intros k. by rewrite Hrtn2.
Qed.

(** The output of [flatten_activity], key by key: an attribute wins over
    the primary attribute copied under a schema field, which wins over a
    base field; no other key appears. *)
Theorem flatten_activity_precedence (r : gmap string pyval) (sch : schema) rtn :
  flatten_activity r sch = Ok rtn ->
  exists attrs,
    row_attrs r = Ok attrs /\
    forall k,
      rtn !! k
      = match attr_lookup attrs k with
        | Some v => Some v
        | None =>
            if is_alias sch k then r !! "primaryAttributeValue"
            else if str_in k BASE_ACTIVITY_FIELDS then r !! k else None
        end.
Proof. intros Hrun. by destruct (flatten_activity_spec _ _ _ Hrun) as [_ ?]. Qed.

(** [flatten_activity] returns only for a row that has the four base
    fields, and returns them as they are: neither the primary attribute nor
    a decoded attribute, whose name is lower-cased, replaces one. *)
Theorem flatten_activity_keeps_base_fields (r : gmap string pyval) (sch : schema) rtn f :
  flatten_activity r sch = Ok rtn ->
  str_in f BASE_ACTIVITY_FIELDS = true ->
  is_Some (r !! f) /\ rtn !! f = r !! f.
Proof.
  intros Hrun Hf.
  destruct (flatten_activity_spec _ _ _ Hrun) as (Hpresent & attrs & _ & Hlook).
  split; [by apply Hpresent|]. rewrite Hlook, Hf.
  assert (Hup : has_upper f = true).
  { simpl in Hf. rewrite orb_false_r in Hf.
    repeat (apply orb_prop in Hf as [Hf|Hf]);
      apply String.eqb_eq in Hf; subst; reflexivity. }
  rewrite attr_lookup_upper by done.
  rewrite is_alias_activity_field; [done|].
  simpl in Hf. rewrite orb_false_r in Hf.
  repeat (apply orb_prop in Hf as [Hf|Hf]);
    apply String.eqb_eq in Hf; subst; reflexivity.
Qed.

Lemma dict_zip_lookup_NoDup headers : forall values (acc : gmap string pyval) i h,
  NoDup headers -> headers !! i = Some h ->
  dict_zip headers values acc !! h
  = match values !! i with
    | Some v => Some (VStr v)
    | None => acc !! h
    end.
Proof.
  assert (Hout : forall headers values (acc : gmap string pyval) h,
             h ∉ headers -> dict_zip headers values acc !! h = acc !! h).
  { clear. induction headers as [|g hs IH]; intros [|v vs] acc h Hnot; simpl; try done.
    apply not_elem_of_cons in Hnot as [Hne Hnot].
    rewrite IH by done. by apply lookup_insert_ne. }
  induction headers as [|g hs IH]; intros values acc i h Hnd Hi; [done|].
  apply NoDup_cons in Hnd as [Hg Hnd].
  destruct i as [|i]; simpl in Hi.
  - inversion Hi; subst. destruct values as [|v vs]; simpl; [done|].
    rewrite Hout by done. apply lookup_insert_eq.
  - destruct values as [|v vs]; simpl.
    + done.
    + rewrite (IH vs _ i h Hnd Hi). destruct (vs !! i); [done|].
      apply lookup_insert_ne. intros ->. apply Hg. by eapply list_elem_of_lookup_2.
Qed.

(** [dict(zip(headers, parsed_line))] with distinct headers: a header has
    the value of its own column, and no entry when the line is too short to
    have that column. *)
Theorem dict_zip_column headers values i h :
  NoDup headers -> headers !! i = Some h ->
  dict_zip headers values ∅ !! h = VStr <$> values !! i.
Proof.
  intros Hnd Hi. rewrite (dict_zip_lookup_NoDup _ _ _ i h Hnd Hi).
  by destruct (values !! i).
Qed.

Lemma dict_zip_origin headers : forall values (acc : gmap string pyval) h x,
  dict_zip headers values acc !! h = Some x ->
  acc !! h = Some x \/ exists i v, headers !! i = Some h /\ values !! i = Some v.
Proof.
  induction headers as [|g hs IH]; intros [|v vs] acc h x Hx; simpl in Hx; auto.
  apply IH in Hx as [Hx|(i & v' & Hi & Hv)].
  - destruct (decide (g = h)) as [->|Hne].
    + right. by exists 0%nat, v.
    + rewrite lookup_insert_ne in Hx by done. by left.
  - right. by exists (S i), v'.
Qed.

(** A line is turned into a record only if every base field is a header
    and the line is long enough to have its column: a missing column makes
    [handle_activity_line] raise. *)
Theorem activity_record_needs_base_columns (s : stream) headers line rec :
  activity_record s headers line = Ok rec ->
  exists values,
    parse_csv_line line = Ok values /\
    forall f, str_in f BASE_ACTIVITY_FIELDS = true ->
      exists i v, headers !! i = Some f /\ values !! i = Some v.
Proof.
  unfold activity_record. intros Hrun.
  destruct (parse_csv_line line) as [values|e]; simpl in Hrun; [|done].
  exists values. split; [done|]. intros f Hf.
  destruct (flatten_activity _ _) as [rtn|e] eqn:Hflat; simpl in Hrun; [|done].
  destruct (flatten_activity_spec _ _ _ Hflat) as [Hpresent _].
  destruct (Hpresent f Hf) as [x Hx].
  apply dict_zip_origin in Hx as [Hx|Hx]; [by rewrite lookup_empty in Hx|done].
Qed.

End FlattenerFurther.

Section Frame.
Context {Lib : Library} {Env : Type} {Cli : Client Env}.

Lemma same_except_refl name st : same_except name st st.
Proof. by split. Qed.

Lemma same_except_trans name st1 st2 st3 :
  same_except name st1 st2 -> same_except name st2 st3 -> same_except name st1 st3.
Proof.
  intros [Hm1 Hb1] [Hm2 Hb2]. split; [congruence|].
  intros other Hne. rewrite Hb2, Hb1 by done. done.
Qed.

Lemma touches_only_pure {A} name (m : M Env A) :
  (forall w, w_state (fst (m w)) = w_state w) -> touches_only name m.
Proof.
  intros Hm w w' o Hrun. specialize (Hm w). rewrite Hrun in Hm. simpl in Hm.
  rewrite Hm. apply same_except_refl.
Qed.

Lemma touches_only_bind {A B} name (m : M Env A) (k : A -> M Env B) :
  touches_only name m -> (forall a, touches_only name (k a)) ->
  touches_only name (bind m k).
Proof.
  intros Hm Hk w w' o Hrun. unfold bind in Hrun.
  destruct (m w) as [w1 [a|e|]] eqn:Hm1; pose proof (Hm _ _ _ Hm1) as H1.
  - eapply same_except_trans; [exact H1|]. by eapply Hk.
  - by inversion Hrun; subst.
  - by inversion Hrun; subst.
Qed.

Lemma touches_only_write name key val :
  touches_only (Env := Env) name (write_bookmark name key val).
Proof.
  intros w w' o Hrun. unfold write_bookmark, update_state in Hrun.
  inversion Hrun; subst. simpl. split; [done|].
  intros other Hne. simpl. by apply lookup_insert_ne.
Qed.

Lemma touches_only_lift {A} name (r : result A) :
  touches_only (Env := Env) name (lift r).
Proof. apply touches_only_pure. by destruct r. Qed.

Lemma touches_only_call {A} name (op : Env -> Env * A) :
  touches_only name (call op).
Proof. apply touches_only_pure. intros w. unfold call. by destruct (op (w_env w)). Qed.

Lemma touches_only_if {A} name (b : bool) (m1 m2 : M Env A) :
  touches_only name m1 -> touches_only name m2 ->
  touches_only name (if b then m1 else m2).
Proof. by destruct b. Qed.

Lemma touches_only_on_export_failed {A} name (m : M Env A) handler :
  touches_only name m -> touches_only name handler ->
  touches_only name (on_export_failed m handler).
Proof.
  intros Hm Hh w w' o Hrun. unfold on_export_failed in Hrun.
  destruct (m w) as [w1 [a|e|]] eqn:Hm1; pose proof (Hm _ _ _ Hm1) as H1;
    try (by inversion Hrun; subst).
  destruct e; try (by inversion Hrun; subst).
  destruct (handler w1) as [w2 [[]|e|]] eqn:Hh1; pose proof (Hh _ _ _ Hh1) as H2;
    inversion Hrun; subst; by eapply same_except_trans.
Qed.

End Frame.

Ltac frame_step :=
  first
    [ apply touches_only_bind; [|intros ?]
    | apply touches_only_write
    | apply touches_only_lift
    | apply touches_only_call
    | apply touches_only_if
    | apply touches_only_pure; intros ?; reflexivity ].

Section FrameStrategies.
Context {Lib : Library} {Env : Type} {Cli : Client Env}.

Lemma client_request_touches name method endpoint endpoint_name params :
  touches_only (Env := Env) name (client_request method endpoint endpoint_name params).
Proof. unfold client_request. repeat frame_step. Qed.

Lemma write_state_touches name : touches_only (Env := Env) name write_state.
Proof. apply touches_only_pure. reflexivity. Qed.

Lemma update_activity_state_touches (s : stream) bookmark export_id export_end :
  touches_only (Env := Env) (s_stream s)
    (update_activity_state s bookmark export_id export_end).
Proof.
  unfold update_activity_state. repeat frame_step; apply write_state_touches.
Qed.

Lemma get_or_create_export_touches (s : stream) :
  touches_only (Env := Env) (s_stream s) (get_or_create_export s).
Proof.
  unfold get_or_create_export, get_bookmark, pendulum_utcnow, client_create_export,
    unbound_name.
  apply touches_only_bind; [by apply touches_only_pure|intros export_id].
  apply touches_only_if; [|by apply touches_only_pure].
  apply touches_only_bind.
  { destruct (split_on _ _) as [|? [|? [|? ?]]]; by apply touches_only_pure. }
  intros ?. apply touches_only_bind; [apply touches_only_lift|intros ?].
  apply touches_only_bind; [by apply touches_only_pure|intros ?].
  apply touches_only_bind; [by apply touches_only_pure|intros ?].
  apply touches_only_bind; [apply touches_only_call|intros ?].
  apply touches_only_bind;
    [apply touches_only_if; [apply touches_only_call|by apply touches_only_pure]|intros ?].
  apply touches_only_bind.
  { repeat frame_step. }
  intros ?. apply touches_only_bind; [apply update_activity_state_touches|intros ?].
  by apply touches_only_pure.
Qed.

Lemma handle_activity_line_touches (s : stream) headers line :
  touches_only (Env := Env) (s_stream s) (handle_activity_line s headers line).
Proof.
  unfold handle_activity_line, get_bookmark, write_record. repeat frame_step.
Qed.

Lemma drain_lines_touches (s : stream) headers lines :
  forall n, touches_only (Env := Env) (s_stream s) (drain_lines s headers lines n).
Proof.
  induction lines as [|line rest IH]; intros n; simpl.
  - by apply touches_only_pure.
  - apply touches_only_bind; [apply handle_activity_line_touches|intros ?]. apply IH.
Qed.

Lemma activities_loop_touches (s : stream) fuel :
  forall js start_pen rc,
  touches_only (Env := Env) (s_stream s) (activities_loop fuel s js start_pen rc).
Proof.
  induction fuel as [|fuel IH]; intros js start_pen rc; simpl.
  - apply touches_only_if; by apply touches_only_pure.
  - apply touches_only_if; [|by apply touches_only_pure].
    apply touches_only_bind; [apply get_or_create_export_touches|intros export_id].
    apply touches_only_bind.
    { apply touches_only_on_export_failed; [|apply update_activity_state_touches].
      unfold client_wait_for_export. repeat frame_step. }
    intros _. apply touches_only_bind.
    { unfold client_stream_export. repeat frame_step. }
    intros lines. apply touches_only_bind.
    { destruct lines; [by apply touches_only_pure|apply touches_only_lift]. }
    intros headers. apply touches_only_bind; [apply drain_lines_touches|intros n].
    apply touches_only_bind; [by apply touches_only_pure|intros start_date].
    apply touches_only_bind; [apply update_activity_state_touches|intros _].
    apply touches_only_bind; [apply touches_only_lift|intros d]. apply IH.
Qed.

Lemma sync_activities_touches (s : stream) fuel :
  touches_only (Env := Env) (s_stream s) (sync_activities fuel s).
Proof.
  unfold sync_activities, get_bookmark, pendulum_utcnow.
  apply touches_only_bind; [apply touches_only_lift|intros rk].
  apply touches_only_bind; [by apply touches_only_pure|intros start_date].
  apply touches_only_bind; [apply touches_only_lift|intros d].
  apply touches_only_bind; [apply touches_only_call|intros js].
  apply activities_loop_touches.
Qed.

Lemma programs_rows_touches name (s : stream) start rows :
  forall rc, touches_only (Env := Env) name (programs_rows s start rows rc).
Proof.
  induction rows as [|r rest IH]; intros rc; simpl.
  - by apply touches_only_pure.
  - unfold write_record. repeat frame_step; apply IH.
Qed.

Lemma programs_loop_touches name (s : stream) start end_date fuel :
  forall offset rc,
  touches_only (Env := Env) name (programs_loop fuel s start end_date offset rc).
Proof.
  induction fuel as [|fuel IH]; intros offset rc; simpl.
  - by apply touches_only_pure.
  - apply touches_only_bind; [apply client_request_touches|intros data].
    apply touches_only_bind; [apply touches_only_lift|intros ws].
    apply touches_only_if; [by apply touches_only_pure|].
    apply touches_only_bind; [apply touches_only_lift|intros rows].
    apply touches_only_bind; [apply programs_rows_touches|intros n]. apply IH.
Qed.

Lemma sync_programs_touches (s : stream) fuel :
  touches_only (Env := Env) "programs" (sync_programs fuel s).
Proof.
  unfold sync_programs, get_bookmark, pendulum_utcnow.
  apply touches_only_bind; [by apply touches_only_pure|intros start_date].
  apply touches_only_bind; [apply touches_only_call|intros now].
  apply touches_only_bind; [apply programs_loop_touches|intros n].
  apply touches_only_bind; [apply touches_only_write|intros _].
  apply touches_only_bind; [apply write_state_touches|intros _].
  by apply touches_only_pure.
Qed.

Lemma paginated_rows_touches (s : stream) rk start rows :
  forall n mb,
  touches_only (Env := Env) (s_stream s) (paginated_rows s rk start rows n mb).
Proof.
  induction rows as [|r rest IH]; intros n mb; simpl.
  - by apply touches_only_pure.
  - unfold write_record, get_bookmark. repeat frame_step; apply IH.
Qed.

Lemma paginated_loop_touches (s : stream) rk start fuel :
  forall params n mb,
  touches_only (Env := Env) (s_stream s) (paginated_loop fuel s rk start params n mb).
Proof.
  induction fuel as [|fuel IH]; intros params n mb; simpl.
  - by apply touches_only_pure.
  - apply touches_only_bind; [apply client_request_touches|intros data].
    apply touches_only_bind; [apply touches_only_lift|intros rows].
    apply touches_only_bind; [apply paginated_rows_touches|intros [n1 mb1]].
    destruct (r_nextPageToken data) as [tok|]; [|by apply touches_only_pure].
    apply touches_only_bind; [apply touches_only_write|intros _].
    apply touches_only_bind; [apply write_state_touches|intros _]. apply IH.
Qed.

Lemma sync_paginated_touches (s : stream) fuel :
  touches_only (Env := Env) (s_stream s) (sync_paginated fuel s).
Proof.
  unfold sync_paginated, get_bookmark.
  apply touches_only_bind; [apply touches_only_lift|intros rk].
  apply touches_only_bind; [by apply touches_only_pure|intros start_date].
  apply touches_only_bind; [by apply touches_only_pure|intros tok].
  apply touches_only_bind; [apply paginated_loop_touches|intros [n mb]].
  apply touches_only_bind; [apply touches_only_write|intros _].
  apply touches_only_bind; [apply touches_only_write|intros _].
  apply touches_only_bind; [apply write_state_touches|intros _].
  by apply touches_only_pure.
Qed.

Lemma sync_activity_types_touches name (s : stream) :
  touches_only (Env := Env) name (sync_activity_types s).
Proof.
  intros w w' o Hrun. apply sync_activity_types_state in Hrun. rewrite Hrun.
  apply same_except_refl.
Qed.

Lemma dispatch_touches (s : stream) fuel :
  touches_only (Env := Env) (s_stream s) (dispatch fuel s).
Proof.
  unfold dispatch.
  apply touches_only_if; [apply sync_activity_types_touches|].
  apply touches_only_if; [apply sync_activities_touches|].
  apply touches_only_if; [apply sync_paginated_touches|].
  destruct (String.eqb_spec (s_stream s) "programs") as [->|Hne].
  - apply sync_programs_touches.
  - by apply touches_only_pure.
Qed.

(** Whatever strategy a stream is dispatched to and however the strategy
    ends, it leaves the currently-syncing marker and the bookmarks of every
    other stream as they were. *)
Theorem dispatch_leaves_other_streams (s : stream) fuel (w : world Env) :
  let run := dispatch fuel s w in
  currently_syncing (w_state (fst run)) = currently_syncing (w_state w) /\
  forall other, other <> s_stream s ->
    bookmarks (w_state (fst run)) !! other = bookmarks (w_state w) !! other.
Proof.
  intros run. destruct (dispatch fuel s w) as [w' o] eqn:Hrun.
  exact (dispatch_touches s fuel w w' o Hrun).
Qed.

(** The marker after the orchestrator's loop body: cleared when the
    stream's sync ends normally, naming the stream when it is cut short, so
    that the next run resumes there. *)
Theorem sync_stream_marker (s : stream) fuel (w : world Env) :
  let run := sync_stream fuel s w in
  currently_syncing (w_state (fst run))
  = match snd run with
    | Done _ => None
    | _ => Some (s_stream s)
    end.
Proof.
  intros run. subst run. unfold sync_stream.
  rewrite bind_log. munfold. simpl.
  match goal with |- context [dispatch fuel s ?w1] =>
    destruct (dispatch fuel s w1) as [w' o] eqn:Hrun;
    destruct (dispatch_touches s fuel w1 w' o Hrun) as [Hmark _] end.
  simpl in Hmark. by destruct o.
Qed.

End FrameStrategies.

Section Counting.
Context {Lib : Library} {Env : Type} {Cli : Client Env}.

Lemma silent_no_record (evs : list event) :
  forallb not_record evs = true -> List.filter is_record evs = [].
Proof.
  induction evs as [|e evs IH]; simpl; [done|]. unfold not_record at 1.
  intros [He Hrest]%andb_prop. destruct (is_record e); [done|]. by apply IH.
Qed.

Lemma counts_ret {A} (count : A -> Z) n0 (a : A) :
  count a = n0 -> counts (Env := Env) count n0 (ret a).
Proof.
  intros Ha w w' a' Hrun. inversion Hrun; subst. exists []. simpl.
  rewrite app_nil_r. split; [done|lia].
Qed.

Lemma counts_never {A} (count : A -> Z) n0 (m : M Env A) :
  (forall w a, snd (m w) <> Done a) -> counts count n0 m.
Proof. intros Hm w w' a Hrun. specialize (Hm w a). by rewrite Hrun in Hm. Qed.

Lemma counts_bind_silent {A B} (count : B -> Z) n0 (m : M Env A) (k : A -> M Env B) :
  emits_only not_record m -> (forall a, counts count n0 (k a)) ->
  counts count n0 (bind m k).
Proof.
  intros Hm Hk w w' b Hrun. unfold bind in Hrun.
  destruct (m w) as [w1 [a|e|]] eqn:Hm1; [|done|done].
  destruct (Hm _ _ _ Hm1) as (evs1 & Hout1 & Hsilent).
  destruct (Hk a _ _ _ Hrun) as (evs2 & Hout2 & Hcount).
  exists (evs1 ++ evs2)%list. split; [by rewrite Hout2, Hout1, <- app_assoc|].
  rewrite Hcount, List.filter_app, length_app, (silent_no_record evs1 Hsilent). done.
Qed.

Lemma counts_bind {A B} (c1 : A -> Z) (c2 : B -> Z) n0 (m : M Env A) (k : A -> M Env B) :
  counts c1 n0 m -> (forall a, counts c2 (c1 a) (k a)) -> counts c2 n0 (bind m k).
Proof.
  intros Hm Hk w w' b Hrun. unfold bind in Hrun.
  destruct (m w) as [w1 [a|e|]] eqn:Hm1; [|done|done].
  destruct (Hm _ _ _ Hm1) as (evs1 & Hout1 & Hc1).
  destruct (Hk a _ _ _ Hrun) as (evs2 & Hout2 & Hc2).
  exists (evs1 ++ evs2)%list. split; [by rewrite Hout2, Hout1, <- app_assoc|].
  rewrite Hc2, Hc1, List.filter_app, length_app. lia.
Qed.

Lemma counts_shift {A} (count : A -> Z) n0 d (m : M Env A) :
  counts (fun a => count a - d) n0 m -> counts count (d + n0) m.
Proof.
  intros Hm w w' a Hrun. destruct (Hm _ _ _ Hrun) as (evs & Hout & Hc).
  exists evs. split; [done|]. simpl in Hc. lia.
Qed.

Lemma counts_record {A} (count : A -> Z) n0 name rec (k : M Env A) :
  counts count (n0 + 1) k ->
  counts count n0 (bind (write_record name rec) (fun _ => k)).
Proof.
  intros Hk w w' a Hrun. unfold bind, write_record, emit in Hrun. simpl in Hrun.
  destruct (Hk _ _ _ Hrun) as (evs & Hout & Hc). simpl in Hout.
  exists (WriteRecord name rec :: evs). split; [by rewrite Hout, <- app_assoc|].
  simpl. lia.
Qed.

Lemma counts_if {A} (count : A -> Z) n0 (b : bool) (m1 m2 : M Env A) :
  counts count n0 m1 -> counts count n0 m2 -> counts count n0 (if b then m1 else m2).
Proof. by destruct b. Qed.

Lemma emits_only_on_export_failed {A} P (m : M Env A) handler :
  emits_only P m -> emits_only P handler -> emits_only P (on_export_failed m handler).
Proof.
  intros Hm Hh w w' o Hrun. unfold on_export_failed in Hrun.
  destruct (m w) as [w1 [a|e|]] eqn:Hm1; destruct (Hm _ _ _ Hm1) as (evs1 & Hout1 & HP1);
    try (inversion Hrun; subst; by eauto).
  destruct e; try (inversion Hrun; subst; by eauto).
  destruct (handler w1) as [w2 [[]|e|]] eqn:Hh1;
    destruct (Hh _ _ _ Hh1) as (evs2 & Hout2 & HP2);
    inversion Hrun; subst; exists (evs1 ++ evs2)%list;
    by rewrite Hout2, Hout1, <- app_assoc, forallb_app, HP1, HP2.
Qed.

Lemma silent_request method endpoint name params :
  emits_only (Env := Env) not_record (client_request method endpoint name params).
Proof. by apply client_request_emits. Qed.

Lemma silent_write_state : emits_only (Env := Env) not_record write_state.
Proof. by apply write_state_emits. Qed.

Lemma silent_pure {A} (m : M Env A) :
  (forall w, w_out (fst (m w)) = w_out w) -> emits_only not_record m.
Proof. apply emits_only_silent. Qed.

Lemma silent_update_activity_state (s : stream) bookmark export_id export_end :
  emits_only (Env := Env) not_record
    (update_activity_state s bookmark export_id export_end).
Proof.
  unfold update_activity_state.
  apply emits_only_bind; [by apply emits_only_silent|intros _].
  apply emits_only_bind; [by apply emits_only_silent|intros _].
  apply emits_only_bind.
  { apply emits_only_if; [|by apply emits_only_silent].
    apply emits_only_bind; [apply emits_only_lift|intros rk]. by apply emits_only_silent. }
  intros _. apply silent_write_state.
Qed.

Lemma silent_get_or_create_export (s : stream) :
  emits_only (Env := Env) not_record (get_or_create_export s).
Proof.
  intros w w' o Hrun.
  destruct (truthy (state_get_bookmark (w_state w) (s_stream s) "export_id")) eqn:Ht.
  - rewrite get_or_create_export_reuses in Hrun by done. inversion Hrun; subst.
    exists []. by rewrite app_nil_r.
  - destruct (get_or_create_export_raises s w Ht) as [e He]. rewrite He in Hrun.
    inversion Hrun; subst. exists []. by rewrite app_nil_r.
Qed.

Lemma activity_types_rows_counts (s : stream) rows :
  forall rc, counts (Env := Env) id rc (activity_types_rows s rows rc).
Proof.
  induction rows as [|r rest IH]; intros rc; simpl.
  - by apply counts_ret.
  - apply counts_bind_silent; [apply emits_only_lift|intros rec].
    apply counts_record. apply IH.
Qed.

Lemma programs_rows_counts (s : stream) start rows :
  forall rc, counts (Env := Env) id rc (programs_rows s start rows rc).
Proof.
  induction rows as [|r rest IH]; intros rc; simpl.
  - by apply counts_ret.
  - apply counts_bind_silent; [apply emits_only_lift|intros rec].
    apply counts_bind_silent; [apply emits_only_lift|intros v].
    apply counts_bind_silent; [apply emits_only_lift|intros newer].
    apply counts_if; [apply counts_record|]; apply IH.
Qed.

Lemma programs_loop_counts (s : stream) start end_date fuel :
  forall offset rc,
  counts (Env := Env) id rc (programs_loop fuel s start end_date offset rc).
Proof.
  induction fuel as [|fuel IH]; intros offset rc; simpl.
  - by apply counts_never.
  - apply counts_bind_silent; [apply silent_request|intros data].
    apply counts_bind_silent; [apply emits_only_lift|intros ws].
    apply counts_if; [by apply counts_ret|].
    apply counts_bind_silent; [apply emits_only_lift|intros rows].
    eapply counts_bind; [apply programs_rows_counts|intros n]. apply IH.
Qed.

Lemma paginated_rows_counts (s : stream) rk start rows :
  forall n mb, counts (Env := Env) fst n (paginated_rows s rk start rows n mb).
Proof.
  induction rows as [|r rest IH]; intros n mb; simpl.
  - by apply counts_ret.
  - apply counts_bind_silent; [apply emits_only_lift|intros rec].
    apply counts_bind_silent; [apply emits_only_lift|intros v].
    apply counts_bind_silent; [apply emits_only_lift|intros newer].
    apply counts_if; [|apply IH].
    apply counts_record.
    apply counts_bind_silent; [by apply emits_only_silent|intros bookmark].
    apply counts_bind_silent; [apply emits_only_lift|intros greater]. apply IH.
Qed.

Lemma paginated_loop_counts (s : stream) rk start fuel :
  forall params n mb,
  counts (Env := Env) fst n (paginated_loop fuel s rk start params n mb).
Proof.
  induction fuel as [|fuel IH]; intros params n mb; simpl.
  - by apply counts_never.
  - apply counts_bind_silent; [apply silent_request|intros data].
    apply counts_bind_silent; [apply emits_only_lift|intros rows].
    eapply counts_bind; [apply paginated_rows_counts|intros [n1 mb1]]. simpl.
    destruct (r_nextPageToken data) as [tok|]; [|by apply counts_ret].
    apply counts_bind_silent; [by apply emits_only_silent|intros _].
    apply counts_bind_silent; [apply silent_write_state|intros _]. apply IH.
Qed.

Lemma handle_activity_line_counts (s : stream) headers line :
  counts (Env := Env) id 0 (handle_activity_line s headers line).
Proof.
  unfold handle_activity_line.
  apply counts_bind_silent; [apply emits_only_lift|intros rec].
  apply counts_bind_silent; [apply emits_only_lift|intros rk].
  apply counts_bind_silent; [by apply emits_only_silent|intros start_date].
  apply counts_bind_silent; [apply emits_only_lift|intros v].
  apply counts_bind_silent; [apply emits_only_lift|intros before].
  apply counts_if; [by apply counts_ret|].
  apply counts_record. by apply counts_ret.
Qed.

Lemma drain_lines_counts (s : stream) headers lines :
  forall rc, counts (Env := Env) id rc (drain_lines s headers lines rc).
Proof.
  induction lines as [|line rest IH]; intros rc; simpl.
  - by apply counts_ret.
  - intros w w' a Hrun. unfold bind in Hrun.
    destruct (handle_activity_line s headers line w) as [w1 [n|e|]] eqn:Hline;
      [|done|done].
    destruct (handle_activity_line_counts _ _ _ _ _ _ Hline) as (evs1 & Hout1 & Hc1).
    destruct (IH _ _ _ _ Hrun) as (evs2 & Hout2 & Hc2).
    exists (evs1 ++ evs2)%list. split; [by rewrite Hout2, Hout1, <- app_assoc|].
    rewrite List.filter_app, length_app. simpl in *. lia.
Qed.

Lemma activities_loop_counts (s : stream) fuel :
  forall js start_pen rc,
  counts (Env := Env) id rc (activities_loop fuel s js start_pen rc).
Proof.
  induction fuel as [|fuel IH]; intros js start_pen rc; simpl.
  - apply counts_if; [by apply counts_never|by apply counts_ret].
  - apply counts_if; [|by apply counts_ret].
    apply counts_bind_silent; [apply silent_get_or_create_export|intros export_id].
    apply counts_bind_silent.
    { apply emits_only_on_export_failed; [|apply silent_update_activity_state].
      unfold client_wait_for_export.
      apply emits_only_bind; [by apply emits_only_emit|intros _].
      apply emits_only_bind; [apply emits_only_call|intros r]. apply emits_only_lift. }
    intros _. apply counts_bind_silent.
    { unfold client_stream_export.
      apply emits_only_bind; [by apply emits_only_emit|intros _].
      apply emits_only_bind; [apply emits_only_call|intros r]. apply emits_only_lift. }
    intros lines. apply counts_bind_silent.
    { destruct lines; [by apply emits_only_silent|apply emits_only_lift]. }
    intros headers. eapply counts_bind; [apply drain_lines_counts|intros n]. simpl.
    apply counts_bind_silent; [by apply emits_only_silent|intros start_date].
    apply counts_bind_silent; [apply silent_update_activity_state|intros _].
    apply counts_bind_silent; [apply emits_only_lift|intros d]. apply IH.
Qed.

Lemma dispatch_counts (s : stream) fuel :
  counts (Env := Env) id 0 (dispatch fuel s).
Proof.
  unfold dispatch.
  apply counts_if.
  { unfold sync_activity_types.
    apply counts_bind_silent; [apply silent_request|intros data].
    apply counts_bind_silent; [apply emits_only_lift|intros rows].
    apply activity_types_rows_counts. }
  apply counts_if.
  { unfold sync_activities.
    apply counts_bind_silent; [apply emits_only_lift|intros rk].
    apply counts_bind_silent; [by apply emits_only_silent|intros start_date].
    apply counts_bind_silent; [apply emits_only_lift|intros d].
    apply counts_bind_silent; [apply emits_only_call|intros js].
    apply activities_loop_counts. }
  apply counts_if.
  { unfold sync_paginated.
    apply counts_bind_silent; [apply emits_only_lift|intros rk].
    apply counts_bind_silent; [by apply emits_only_silent|intros start_date].
    apply counts_bind_silent; [by apply emits_only_silent|intros tok].
    eapply counts_bind; [apply paginated_loop_counts|intros [n mb]]. simpl.
    apply counts_bind_silent; [by apply emits_only_silent|intros _].
    apply counts_bind_silent; [by apply emits_only_silent|intros _].
    apply counts_bind_silent; [apply silent_write_state|intros _].
    by apply counts_ret. }
  apply counts_if; [|by apply counts_never].
  unfold sync_programs.
  apply counts_bind_silent; [by apply emits_only_silent|intros start_date].
  apply counts_bind_silent; [apply emits_only_call|intros now].
  eapply counts_bind; [apply programs_loop_counts|intros n]. simpl.
  apply counts_bind_silent; [by apply emits_only_silent|intros _].
  apply counts_bind_silent; [apply silent_write_state|intros _].
  by apply counts_ret.
Qed.

(** When the sync of a stream ends normally, the orchestrator has emitted,
    right after what the strategy wrote, one record-count metric for the
    stream, and its value is the number of records the strategy wrote. *)
Theorem record_count_metric_is_exact (s : stream) fuel (w w' : world Env) :
  sync_stream fuel s w = (w', Done tt) ->
  exists evs n st1 st2,
    w_out w'
    = (w_out w ++ LogInfo (s_stream s ++ ": starting sync") :: WriteState st1 :: evs
         ++ [RecordCount (s_stream s) n; WriteState st2;
             LogInfo (s_stream s ++ ": finished sync")])%list /\
    n = Z.of_nat (length (List.filter is_record evs)).
Proof.
  unfold sync_stream. rewrite bind_log. munfold. simpl.
  match goal with |- context [dispatch fuel s ?w1] =>
    destruct (dispatch fuel s w1) as [w2 [n|e|]] eqn:Hrun; [|done|done] end.
  destruct (dispatch_counts _ _ _ _ _ Hrun) as (evs & Hout & Hn). simpl in Hout, Hn.
  intros [= <-]. simpl. eexists evs, n, _, _. split; [|done].
  rewrite Hout. repeat rewrite <- app_assoc. reflexivity.
Qed.

End Counting.

Section FlatFetchAndSkips.
Context {Lib : Library} {Env : Type} {Cli : Client Env}.

Lemma activity_types_rows_run (s : stream) rows recs :
  Forall2 (fun r rec => format_values s r = Ok rec) rows recs ->
  forall rc (w : world Env),
  activity_types_rows s rows rc w
  = ({| w_env := w_env w; w_state := w_state w;
        w_out := (w_out w ++ map (WriteRecord "activity_types") recs)%list |},
     Done (rc + Z.of_nat (length rows))).
Proof.
  induction 1 as [|r rec rows recs Hr Hrest IH]; intros rc w; simpl.
  - munfold. rewrite app_nil_r. replace (rc + Z.of_nat 0) with rc by lia. by destruct w.
  - munfold. rewrite Hr. simpl. rewrite IH. simpl. rewrite <- app_assoc. simpl.
    f_equal. f_equal. lia.
Qed.

(** The flat fetch: one request without parameters, every row of the
    response written in order whatever its values, as many counted, and the
    state left as it was. *)
Theorem sync_activity_types_writes_all_rows (s : stream) (w : world Env)
    env' data rows recs :
  request (w_env w) "GET" "rest/v1/activities/types.json" "activity_types" []
    = (env', Ok data) ->
  r_result data = Some rows ->
  Forall2 (fun r rec => format_values s r = Ok rec) rows recs ->
  sync_activity_types s w
  = ({| w_env := env'; w_state := w_state w;
        w_out := (w_out w
                  ++ Request "GET" "rest/v1/activities/types.json" "activity_types" []
                  :: map (WriteRecord "activity_types") recs)%list |},
     Done (Z.of_nat (length rows))).
Proof.
  intros Hreq Hrows Hrecs. unfold sync_activity_types. munfold. simpl.
  rewrite Hreq. simpl. unfold data_result. rewrite Hrows.
  rewrite (activity_types_rows_run s rows recs Hrecs). simpl.
  by rewrite <- app_assoc.
Qed.

(** The state after [sync_programs]: the bookmark is moved to the end of
    the query when every page has been read, and nothing at all is changed
    when the run is cut short. *)
Theorem sync_programs_state_all_or_nothing (s : stream) fuel (w : world Env) :
  let run := sync_programs fuel s w in
  w_state (fst run)
  = match snd run with
    | Done _ =>
        state_write_bookmark (w_state w) "programs" "updatedAt"
          (Some (isoformat (snd (utcnow (w_env w)))))
    | _ => w_state w
    end.
Proof.
  intros run. subst run. destruct (utcnow (w_env w)) as [env0 now] eqn:Hnow.
  rewrite (sync_programs_run s fuel w env0 now Hnow). simpl.
  destruct (programs_loop _ _ _ _ _ _ _) as [w1 [rc|e|]] eqn:Hloop;
    apply programs_loop_state in Hloop; simpl in *; by rewrite Hloop.
Qed.

Lemma sync_streams_all_skipped fuel marker streams :
  forallb (skipped marker) streams = true ->
  forall w : world Env,
  exists evs,
    sync_streams fuel streams marker w
    = ({| w_env := w_env w; w_state := w_state w; w_out := (w_out w ++ evs)%list |},
       Done tt) /\
    forallb is_log evs = true.
Proof.
  induction streams as [|s rest IH]; intros Hall w; simpl.
  - exists []. rewrite app_nil_r. by destruct w.
  - simpl in Hall. apply andb_prop in Hall as [Hs Hrest]. unfold skipped in Hs.
    destruct (flag (sch_selected (s_schema s))); simpl in Hs |- *.
    + rewrite Hs. rewrite bind_log.
      destruct (IH Hrest {| w_env := w_env w; w_state := w_state w;
                            w_out := (w_out w ++ [LogInfo (s_stream s ++ ": already synced")])%list |})
        as (evs & -> & Hlog).
      simpl. eexists (_ :: evs). split; [by rewrite <- app_assoc|done].
    + rewrite bind_log.
      destruct (IH Hrest {| w_env := w_env w; w_state := w_state w;
                            w_out := (w_out w ++ [LogInfo (s_stream s ++ ": not selected")])%list |})
        as (evs & -> & Hlog).
      simpl. eexists (_ :: evs). split; [by rewrite <- app_assoc|done].
Qed.

(** A catalog in which every stream is unselected or is not the one a
    pending resume marker names is passed over whole: [sync] ends normally
    having only logged, with no client call, and the state, the marker
    included, is as before. *)
Theorem sync_skips_whole_catalog fuel catalog (w : world Env) :
  forallb (skipped (currently_syncing (w_state w))) catalog = true ->
  exists evs,
    sync fuel catalog w
    = ({| w_env := w_env w; w_state := w_state w; w_out := (w_out w ++ evs)%list |},
       Done tt) /\
    forallb is_log evs = true.
Proof.
  intros Hall. unfold sync, get_currently_syncing, read_state.
  unfold bind at 1.
  assert (Hrest : forall first (w1 : world Env),
            is_log first = true ->
            w1 = {| w_env := w_env w; w_state := w_state w;
                    w_out := (w_out w ++ [first])%list |} ->
            exists evs,
              (let! _ := sync_streams fuel catalog (currently_syncing (w_state w)) in
               let! _ := log_info "Finished sync" in
               let! corona := read_env use_corona in
               if negb corona then log_warning NO_CORONA_WARNING else ret tt) w1
              = ({| w_env := w_env w; w_state := w_state w;
                    w_out := (w_out w ++ evs)%list |}, Done tt) /\
              forallb is_log evs = true).
  { intros first w1 Hfirst ->. unfold bind at 1.
    match goal with |- context [sync_streams fuel catalog _ ?w1] =>
      destruct (sync_streams_all_skipped fuel _ catalog Hall w1) as (evs & -> & Hlog) end.
    rewrite bind_log. unfold read_env, log_warning, emit, bind, ret. simpl.
    destruct (use_corona (w_env w)); simpl.
    - eexists (first :: evs ++ [_])%list. split.
      + repeat rewrite <- app_assoc. reflexivity.
      + simpl. by rewrite Hfirst, forallb_app, Hlog.
    - eexists (first :: evs ++ [_; _])%list. split.
      + repeat rewrite <- app_assoc. reflexivity.
      + simpl. by rewrite Hfirst, forallb_app, Hlog. }
  destruct (truthy (currently_syncing (w_state w))); rewrite bind_log.
  - by apply (Hrest (LogInfo ("Resuming sync from "
                            ++ text_of (currently_syncing (w_state w))))).
  - by apply (Hrest (LogInfo "Starting sync")).
Qed.

End FlatFetchAndSkips.

Section TokenResume.
Context {Lib : Library} {Env : Type} {Cli : Client Env}.

Lemma paginated_loop_first (s : stream) rk start fuel params n mb (w w' : world Env) o :
  paginated_loop (S fuel) s rk start params n mb w = (w', o) ->
  exists evs,
    w_out w'
    = (w_out w ++ Request "GET" (paginated_endpoint s) (s_stream s) params :: evs)%list.
Proof.
  simpl. unfold client_request. rewrite !bind_assoc.
  unfold bind at 1, emit at 1. intros Hrun.
  match type of Hrun with ?m ?w1 = _ =>
    assert (Hm : emits_only (paginated_event (s_stream s)) m) end.
  { apply emits_only_bind.
    { apply emits_only_bind; [apply emits_only_call|intros r]. apply emits_only_lift. }
    intros data.
    apply emits_only_bind; [apply emits_only_lift|intros rows].
    apply emits_only_bind; [apply paginated_rows_emits|intros [n1 mb1]].
    destruct (r_nextPageToken data) as [tok|]; [|by apply emits_only_silent].
    apply emits_only_bind; [by apply emits_only_silent|intros _].
    apply emits_only_bind; [by apply write_state_emits|intros _].
    apply paginated_loop_emits. }
  destruct (Hm _ _ _ Hrun) as (evs & Hout & _). simpl in Hout.
  exists evs. by rewrite Hout, <- app_assoc.
Qed.

Lemma sync_paginated_first_request (s : stream) rk fuel (w : world Env) :
  s_replication_key s = Some rk ->
  exists w' o evs,
    sync_paginated (S fuel) s w = (w', o) /\
    w_out w'
    = (w_out w
       ++ Request "GET" (paginated_endpoint s) (s_stream s)
            (paginated_first_params
               (state_get_bookmark (w_state w) (s_stream s) "next_page_token"))
       :: evs)%list.
Proof.
  intros Hs. unfold sync_paginated, replication_key. rewrite Hs.
  unfold lift, get_bookmark, read_state. unfold bind at 1 2 3. unfold ret at 1.
  set (tok := state_get_bookmark (w_state w) (s_stream s) "next_page_token").
  assert (Hparams : (if truthy tok
                     then dict_set "nextPageToken" (of_bookmark tok)
                            [("batchSize", VInt 300)]
                     else [("batchSize", VInt 300)]) = paginated_first_params tok).
  { unfold paginated_first_params. by destruct (truthy tok). }
  rewrite Hparams. unfold bind at 1.
  destruct (paginated_loop (S fuel) s rk _ _ 0 _ w) as [w1 [[n mb]|e|]] eqn:Hloop;
    destruct (paginated_loop_first _ _ _ _ _ _ _ _ _ _ Hloop) as (evs & Hout).
  - munfold. simpl. eexists _, _, (evs ++ [_])%list. split; [reflexivity|].
    simpl. by rewrite Hout, <- app_assoc.
  - by eexists _, _, evs.
  - by eexists _, _, evs.
Qed.

(** A page token survives an interruption.  When the first response of a
    run carries a non-empty token and the next request fails, the run ends
    with that failure and the token bookmarked; and any later run from that
    state sends the token with its first request. *)
Theorem paginated_token_resumes (s : stream) rk fuel fuel' (w w1 : world Env)
    env1 data rows counted token env2 e :
  let name := s_stream s in
  let start_date := state_get_bookmark (w_state w) name rk in
  let params := paginated_first_params (state_get_bookmark (w_state w) name "next_page_token") in
  s_replication_key s = Some rk ->
  request (w_env w) "GET" (paginated_endpoint s) name params = (env1, Ok data) ->
  r_result data = Some rows ->
  r_nextPageToken data = Some token ->
  token <> EmptyString ->
  paginated_rows s rk start_date rows 0 start_date
    {| w_env := env1; w_state := w_state w;
       w_out := (w_out w ++ [Request "GET" (paginated_endpoint s) name params])%list |}
    = (w1, Done counted) ->
  request (w_env w1) "GET" (paginated_endpoint s) name
    (dict_set "nextPageToken" (VStr token) params) = (env2, Err e) ->
  exists w',
    sync_paginated (S (S fuel)) s w = (w', Raise e) /\
    state_get_bookmark (w_state w') name "next_page_token" = Some token /\
    forall w2 : world Env,
      w_state w2 = w_state w' ->
      exists w3 o evs,
        sync_paginated (S fuel') s w2 = (w3, o) /\
        w_out w3
        = (w_out w2
           ++ Request "GET" (paginated_endpoint s) name
                [("batchSize", VInt 300); ("nextPageToken", VStr token)]
           :: evs)%list.
Proof.
  intros name start_date params Hs Hreq Hrows Htok Hne Hpage Hfail.
  assert (Hstate : w_state w1 = w_state w).
  { destruct counted as [n mb].
    by destruct (paginated_rows_spec _ _ _ _ _ _ _ _ _ _ Hpage) as (_ & _ & _ & ? & _). }
  set (st' := state_write_bookmark (w_state w) name "next_page_token" (Some token)).
  assert (Hrun : sync_paginated (S (S fuel)) s w
                 = ({| w_env := env2; w_state := st';
                       w_out := (w_out w1 ++ [WriteState st';
                                   Request "GET" (paginated_endpoint s) name
                                     (dict_set "nextPageToken" (VStr token) params)])%list |},
                    Raise e)).
  { unfold sync_paginated, replication_key. rewrite Hs.
    unfold lift, get_bookmark, read_state. unfold bind at 1 2 3. unfold ret at 1.
    fold name.
    assert (Hparams : (if truthy (state_get_bookmark (w_state w) name "next_page_token")
                       then dict_set "nextPageToken"
                              (of_bookmark (state_get_bookmark (w_state w) name "next_page_token"))
                              [("batchSize", VInt 300)]
                       else [("batchSize", VInt 300)]) = params).
    { subst params. unfold paginated_first_params. by destruct (truthy _). }
    rewrite Hparams. fold start_date. unfold bind at 1.
    assert (Hloop : paginated_loop (S (S fuel)) s rk start_date params 0 start_date w
                    = ({| w_env := env2; w_state := st';
                          w_out := (w_out w1 ++ [WriteState st';
                                      Request "GET" (paginated_endpoint s) name
                                        (dict_set "nextPageToken" (VStr token) params)])%list |},
                       Raise e)).
    { simpl. munfold. simpl. fold name. rewrite Hreq. simpl.
      unfold data_result. rewrite Hrows. rewrite Hpage. destruct counted as [n mb].
      rewrite Htok. simpl. rewrite Hfail. simpl. rewrite Hstate.
      fold st'. by rewrite <- app_assoc. }
    by rewrite Hloop. }
  eexists. split; [exact Hrun|]. simpl. split; [apply state_get_write_eq|].
  intros w2 Hw2. destruct (sync_paginated_first_request s rk fuel' w2 Hs)
    as (w3 & o & evs & Hrun2 & Hout).
  exists w3, o, evs. split; [done|]. rewrite Hout, Hw2. fold name. unfold st'.
  rewrite state_get_write_eq. unfold paginated_first_params. simpl.
  destruct (String.eqb_spec token EmptyString); [done|]. done.
Qed.

(** A run that read every page starts the next one afresh.  When
    [sync_paginated] ends normally the page token is unset in the state it
    leaves, and any later run from that state sends only the batch size
    with its first request. *)
Theorem completed_paginated_run_restarts (s : stream) rk fuel fuel'
    (w w' : world Env) n :
  let name := s_stream s in
  s_replication_key s = Some rk ->
  rk <> "next_page_token" ->
  sync_paginated fuel s w = (w', Done n) ->
  state_get_bookmark (w_state w') name "next_page_token" = None /\
  forall w2 : world Env,
    w_state w2 = w_state w' ->
    exists w3 o evs,
      sync_paginated (S fuel') s w2 = (w3, o) /\
      w_out w3
      = (w_out w2
         ++ Request "GET" (paginated_endpoint s) name [("batchSize", VInt 300)]
         :: evs)%list.
Proof.
  intros name Hs Hrk Hrun.
  assert (Htoken : state_get_bookmark (w_state w') name "next_page_token" = None).
  { unfold sync_paginated, replication_key in Hrun. rewrite Hs in Hrun.
    munfold. simpl in Hrun.
    destruct (paginated_loop _ _ _ _ _ _ _ _) as [w1 [[n1 mb1]|e|]]; [|done|done].
    inversion Hrun; subst. simpl. fold name.
    rewrite state_get_write_ne by congruence. apply state_get_write_eq. }
  split; [exact Htoken|]. intros w2 Hw2.
  destruct (sync_paginated_first_request s rk fuel' w2 Hs) as (w3 & o & evs & Hrun2 & Hout).
  exists w3, o, evs. split; [done|]. rewrite Hout, Hw2. fold name. by rewrite Htoken.
Qed.

End TokenResume.

Section ResumedExport.
Context {Lib : Library} {Env : Type} {Cli : Client Env}.

(** A run resumed on a bookmarked export whose window ends at or after the
    start of the run: the export is awaited and streamed without a new one
    being created, its lines after the header are drained, the cursor is
    moved to the bookmarked end of the window, both export bookmarks are
    cleared, the state is persisted once and the run ends. *)
Theorem resumed_export_moves_cursor_to_window_end (s : stream) rk fuel (w w3 : world Env)
    start_pen env1 job_started export_id env2 env3 first rest headers n export_end d :
  let name := s_stream s in
  let st' :=
    state_write_bookmark (cleared_export (w_state w) name) name rk (Some export_end) in
  s_replication_key s = Some rk ->
  pendulum_parse (of_bookmark (state_get_bookmark (w_state w) name rk)) = Ok start_pen ->
  utcnow (w_env w) = (env1, job_started) ->
  dt_lt start_pen job_started = true ->
  state_get_bookmark (w_state w) name "export_id" = Some export_id ->
  export_id <> EmptyString ->
  wait_for_export env1 "activities" export_id = (env2, Ok tt) ->
  stream_export env2 "activities" export_id = (env3, Ok (first :: rest)) ->
  parse_csv_line first = Ok headers ->
  drain_lines s headers rest 0
    {| w_env := env3; w_state := w_state w;
       w_out := (w_out w ++ [WaitForExport "activities" export_id;
                             StreamExport "activities" export_id])%list |}
    = (w3, Done n) ->
  state_get_bookmark (w_state w) name "export_end" = Some export_end ->
  export_end <> EmptyString ->
  pendulum_parse (VStr export_end) = Ok d ->
  dt_lt d job_started = false ->
  sync_activities (S fuel) s w
  = ({| w_env := w_env w3; w_state := st';
        w_out := (w_out w3 ++ [WriteState st'])%list |}, Done n)
  /\ state_get_bookmark st' name rk = Some export_end
  /\ List.filter is_create_export (w_out w3) = List.filter is_create_export (w_out w).
Proof.
  intros name st' Hs Hparse Hnow Hlt Hid Hidne Hwait Hstream Hhead Hdrain Hend Hendne
    Hd Hge.
  destruct (drain_lines_spec _ _ _ _ Hs _ _ _ _ Hdrain) as (recs & _ & Hout3 & Hst3 & _).
  simpl in Hout3, Hst3.
  assert (Htruthy : truthy (Some export_id) = true).
  { simpl. by destruct (String.eqb_spec export_id EmptyString). }
  assert (Htruthy' : truthy (Some export_end) = true).
  { simpl. by destruct (String.eqb_spec export_end EmptyString). }
  split; [|split].
  - unfold sync_activities, replication_key. rewrite Hs. munfold. simpl.
    fold name. rewrite Hparse. simpl. rewrite Hnow. simpl. rewrite Hlt.
    unfold bind at 1. rewrite get_or_create_export_reuses by (simpl; fold name; by rewrite Hid).
    simpl w_state. fold name. rewrite Hid.
    unfold bind at 1. unfold on_export_failed, client_wait_for_export. munfold. simpl.
    rewrite Hwait. simpl. rewrite Hstream. simpl. rewrite Hhead. simpl.
    rewrite <- app_assoc. simpl. rewrite Hdrain.
    rewrite Hst3. fold name. rewrite Hend.
    rewrite (update_activity_state_run s rk (Some export_end) None None) by done.
    rewrite Htruthy'. simpl. rewrite Hst3, Hd.
    rewrite activities_loop_done by done. reflexivity.
  - apply state_get_write_eq.
  - rewrite Hout3, List.filter_app.
    assert (Hnone : forall l, List.filter is_create_export (map (WriteRecord (s_stream s)) l) = []).
    { induction l; simpl; auto. }
    rewrite Hnone, app_nil_r, List.filter_app. simpl. by rewrite app_nil_r.
Qed.

End ResumedExport.

(** ** Logs and metrics belong to the orchestrator *)

Section StrategyEvents.
Context {Lib : Library} {Env : Type} {Cli : Client Env}.

Lemma bind_ext {A B} (m : M Env A) (k k' : A -> M Env B) w :
  (forall a w1, k a w1 = k' a w1) -> bind m k w = bind m k' w.
Proof. intros Hk. unfold bind. by destruct (m w) as [w1 [a|e|]]. Qed.

Lemma update_activity_state_events (s : stream) bookmark export_id export_end :
  emits_only (Env := Env) strategy_event
    (update_activity_state s bookmark export_id export_end).
Proof.
  unfold update_activity_state.
  apply emits_only_bind; [by apply emits_only_silent|intros _].
  apply emits_only_bind; [by apply emits_only_silent|intros _].
  apply emits_only_bind; [|intros _; by apply write_state_emits].
  apply emits_only_if; [|by apply emits_only_silent].
  apply emits_only_bind; [apply emits_only_lift|intros rk]. by apply emits_only_silent.
Qed.

Lemma get_or_create_export_events (s : stream) :
  emits_only (Env := Env) strategy_event (get_or_create_export s).
Proof.
  intros w w' o Hrun.
  destruct (truthy (state_get_bookmark (w_state w) (s_stream s) "export_id")) eqn:Ht.
  - rewrite get_or_create_export_reuses in Hrun by done. inversion Hrun; subst.
    exists []. by rewrite app_nil_r.
  - destruct (get_or_create_export_raises s w Ht) as [e He]. rewrite He in Hrun.
    inversion Hrun; subst. exists []. by rewrite app_nil_r.
Qed.

Lemma drain_lines_events (s : stream) headers lines :
  forall rc, emits_only (Env := Env) strategy_event (drain_lines s headers lines rc).
Proof.
  induction lines as [|line rest IH]; intros rc; simpl.
  - by apply emits_only_silent.
  - apply emits_only_bind; [|intros n; apply IH]. unfold handle_activity_line.
    apply emits_only_bind; [apply emits_only_lift|intros rec].
    apply emits_only_bind; [apply emits_only_lift|intros rk].
    apply emits_only_bind; [by apply emits_only_silent|intros start_date].
    apply emits_only_bind; [apply emits_only_lift|intros v].
    apply emits_only_bind; [apply emits_only_lift|intros before].
    apply emits_only_if; [by apply emits_only_silent|].
    apply emits_only_bind; [by apply emits_only_emit|intros _]. by apply emits_only_silent.
Qed.

Lemma activities_loop_events (s : stream) fuel :
  forall js start_pen rc,
  emits_only (Env := Env) strategy_event (activities_loop fuel s js start_pen rc).
Proof.
  induction fuel as [|fuel IH]; intros js start_pen rc; simpl.
  - apply emits_only_if; by apply emits_only_silent.
  - apply emits_only_if; [|by apply emits_only_silent].
    apply emits_only_bind; [apply get_or_create_export_events|intros export_id].
    apply emits_only_bind.
    { apply emits_only_on_export_failed; [|apply update_activity_state_events].
      unfold client_wait_for_export.
      apply emits_only_bind; [by apply emits_only_emit|intros _].
      apply emits_only_bind; [apply emits_only_call|intros r]. apply emits_only_lift. }
    intros _. apply emits_only_bind.
    { unfold client_stream_export.
      apply emits_only_bind; [by apply emits_only_emit|intros _].
      apply emits_only_bind; [apply emits_only_call|intros r]. apply emits_only_lift. }
    intros lines. apply emits_only_bind.
    { destruct lines; [by apply emits_only_silent|apply emits_only_lift]. }
    intros headers. apply emits_only_bind; [apply drain_lines_events|intros n].
    apply emits_only_bind; [by apply emits_only_silent|intros start_date].
    apply emits_only_bind; [apply update_activity_state_events|intros _].
    apply emits_only_bind; [apply emits_only_lift|intros d]. apply IH.
Qed.

Lemma programs_rows_events (s : stream) start rows :
  forall rc, emits_only (Env := Env) strategy_event (programs_rows s start rows rc).
Proof.
  induction rows as [|r rest IH]; intros rc; simpl.
  - by apply emits_only_silent.
  - apply emits_only_bind; [apply emits_only_lift|intros rec].
    apply emits_only_bind; [apply emits_only_lift|intros v].
    apply emits_only_bind; [apply emits_only_lift|intros newer].
    apply emits_only_if; [|apply IH].
    apply emits_only_bind; [by apply emits_only_emit|intros _]. apply IH.
Qed.

Lemma programs_loop_events (s : stream) start end_date fuel :
  forall offset rc,
  emits_only (Env := Env) strategy_event (programs_loop fuel s start end_date offset rc).
Proof.
  induction fuel as [|fuel IH]; intros offset rc; simpl.
  - by apply emits_only_silent.
  - apply emits_only_bind; [by apply client_request_emits|intros data].
    apply emits_only_bind; [apply emits_only_lift|intros ws].
    apply emits_only_if; [by apply emits_only_silent|].
    apply emits_only_bind; [apply emits_only_lift|intros rows].
    apply emits_only_bind; [apply programs_rows_events|intros n]. apply IH.
Qed.

Lemma activity_types_rows_events (s : stream) rows :
  forall rc, emits_only (Env := Env) strategy_event (activity_types_rows s rows rc).
Proof.
  induction rows as [|r rest IH]; intros rc; simpl.
  - by apply emits_only_silent.
  - apply emits_only_bind; [apply emits_only_lift|intros rec].
    apply emits_only_bind; [by apply emits_only_emit|intros _]. apply IH.
Qed.

Lemma paginated_event_strategy name e :
  paginated_event name e = true -> strategy_event e = true.
Proof. by destruct e. Qed.

(** Whatever stream is dispatched, the strategy writes client calls,
    records and states only. *)
Lemma dispatch_events (s : stream) fuel :
  emits_only (Env := Env) strategy_event (dispatch fuel s).
Proof.
  unfold dispatch.
  apply emits_only_if.
  { unfold sync_activity_types.
    apply emits_only_bind; [by apply client_request_emits|intros data].
    apply emits_only_bind; [apply emits_only_lift|intros rows].
    apply activity_types_rows_events. }
  apply emits_only_if.
  { unfold sync_activities.
    apply emits_only_bind; [apply emits_only_lift|intros rk].
    apply emits_only_bind; [by apply emits_only_silent|intros start_date].
    apply emits_only_bind; [apply emits_only_lift|intros d].
    apply emits_only_bind; [apply emits_only_call|intros js].
    apply activities_loop_events. }
  apply emits_only_if.
  { eapply emits_only_weaken; [apply paginated_event_strategy|].
    apply sync_paginated_emits. }
  apply emits_only_if; [|by apply emits_only_silent].
  unfold sync_programs.
  apply emits_only_bind; [by apply emits_only_silent|intros start_date].
  apply emits_only_bind; [apply emits_only_call|intros now].
  apply emits_only_bind; [apply programs_loop_events|intros n].
  apply emits_only_bind; [by apply emits_only_silent|intros _].
  apply emits_only_bind; [by apply write_state_emits|intros _].
  by apply emits_only_silent.
Qed.

Lemma strategy_event_not_warning e : strategy_event e = true -> not_warning e = true.
Proof. by destruct e. Qed.

Lemma sync_stream_no_warning (s : stream) fuel :
  emits_only (Env := Env) not_warning (sync_stream fuel s).
Proof.
  unfold sync_stream.
  apply emits_only_bind; [by apply emits_only_emit|intros _].
  apply emits_only_bind; [by apply emits_only_silent|intros _].
  apply emits_only_bind; [by apply write_state_emits|intros _].
  apply emits_only_bind.
  { eapply emits_only_weaken; [apply strategy_event_not_warning|apply dispatch_events]. }
  intros rc. apply emits_only_bind; [by apply emits_only_emit|intros _].
  apply emits_only_bind; [by apply emits_only_silent|intros _].
  apply emits_only_bind; [by apply write_state_emits|intros _].
  by apply emits_only_emit.
Qed.

Lemma sync_streams_no_warning fuel streams :
  forall marker, emits_only (Env := Env) not_warning (sync_streams fuel streams marker).
Proof.
  induction streams as [|s rest IH]; intros marker; simpl.
  - by apply emits_only_silent.
  - apply emits_only_if.
    { apply emits_only_bind; [by apply emits_only_emit|intros _]. apply IH. }
    apply emits_only_if.
    { apply emits_only_bind; [by apply emits_only_emit|intros _]. apply IH. }
    apply emits_only_bind; [apply sync_stream_no_warning|intros _]. apply IH.
Qed.

(** The Corona warning is the only warning of the tap.  It is the last
    message of a run that got through the whole catalog, after
    [Finished sync], and is written exactly when the client reports no
    Corona support; a run that is cut short writes no warning at all. *)
Theorem corona_warning_closes_full_run fuel catalog (w : world Env) :
  let run := sync fuel catalog w in
  exists evs,
    forallb not_warning evs = true /\
    w_out (fst run)
    = (w_out w ++ evs
         ++ match snd run with
            | Done _ =>
                LogInfo "Finished sync"
                :: (if use_corona (w_env (fst run)) then []
                    else [LogWarning NO_CORONA_WARNING])
            | _ => []
            end)%list.
Proof.
  intros run. subst run.
  set (before :=
         let! starting_stream := get_currently_syncing in
         let! _ :=
           if truthy starting_stream
           then log_info ("Resuming sync from " ++ text_of starting_stream)
           else log_info "Starting sync" in
         sync_streams fuel catalog starting_stream).
  set (after := fun _ : unit =>
         let! _ := log_info "Finished sync" in
         let! corona := read_env use_corona in
         if negb corona then log_warning NO_CORONA_WARNING else ret tt).
  assert (Hsplit : sync fuel catalog w = bind before after w).
  { unfold before, sync. etransitivity; [|symmetry; apply bind_assoc].
    apply bind_ext. intros marker w1. symmetry. apply bind_assoc. }
  assert (Hbefore : emits_only not_warning before).
  { unfold before.
    apply emits_only_bind; [by apply emits_only_silent|intros marker].
    apply emits_only_bind; [|intros _; apply sync_streams_no_warning].
    apply emits_only_if; by apply emits_only_emit. }
  unfold bind in Hsplit.
  destruct (before w) as [w1 [[]|e|]] eqn:Hrun;
    destruct (Hbefore _ _ _ Hrun) as (evs & Hout & Hevs); exists evs;
    (split; [done|]).
  - unfold after in Hsplit. rewrite bind_log in Hsplit.
    unfold read_env, log_warning, emit, bind, ret in Hsplit. simpl in Hsplit.
    destruct (use_corona (w_env w1)) eqn:Hcorona; simpl in Hsplit; rewrite Hsplit;
      simpl; rewrite Hcorona, Hout; repeat rewrite <- app_assoc; reflexivity.
  - rewrite Hsplit. simpl. by rewrite app_nil_r.
  - rewrite Hsplit. simpl. by rewrite app_nil_r.
Qed.

(** The record-count metric of a stream is emitted once, when its sync has
    ended normally; a sync that is cut short emits no metric, whatever the
    strategy had written by then. *)
Theorem metric_only_for_completed_stream (s : stream) fuel (w : world Env) :
  let run := sync_stream fuel s w in
  exists evs,
    w_out (fst run) = (w_out w ++ evs)%list /\
    length (List.filter is_metric evs)
    = match snd run with
      | Done _ => 1%nat
      | _ => 0%nat
      end.
Proof.
  intros run. subst run. unfold sync_stream. rewrite bind_log. munfold. simpl.
  match goal with |- context [dispatch fuel s ?w1] =>
    destruct (dispatch fuel s w1) as [w2 [n|e|]] eqn:Hrun;
      destruct (dispatch_events _ _ _ _ _ Hrun) as (evs & Hout & Hevs) end;
    simpl in Hout |- *;
    assert (Hnone : List.filter is_metric evs = []).
  1, 3, 5: (clear - Hevs; induction evs as [|e' evs IH]; simpl in *; [done|];
            apply andb_prop in Hevs as [He Hrest]; destruct e'; try done; by apply IH).
  - eexists (_ :: _ :: evs ++ [_; _; _])%list. split.
    + rewrite Hout. repeat rewrite <- app_assoc. reflexivity.
    + simpl. rewrite List.filter_app, Hnone. reflexivity.
  - eexists (_ :: _ :: evs)%list. split.
    + rewrite Hout. repeat rewrite <- app_assoc. reflexivity.
    + simpl. by rewrite Hnone.
  - eexists (_ :: _ :: evs)%list. split.
    + rewrite Hout. repeat rewrite <- app_assoc. reflexivity.
    + simpl. by rewrite Hnone.
Qed.

End StrategyEvents.

(** ** The further properties on concrete runs *)

Section FurtherRuns.
Import Fixture Scenario Cases.

(** Discharge the first hypothesis of [H] with [tac]. *)
Ltac feed H tac :=
  match type of H with
  | ?A -> _ => let Ha := fresh in assert (Ha : A) by tac; specialize (H Ha); clear Ha
  end.

Lemma fixture_formats_are_stable : formats_are_stable (Lib := library).
Proof.
  split; [done|]. split; [done|]. intros v d Hd. destruct v; try discriminate Hd.
  change (parse (VStr s) = Ok d) in Hd. unfold parse in Hd.
  destruct (List.find _ calendar) as [p|] eqn:Hfind; [|discriminate Hd].
  inversion Hd; subst d. apply List.find_some in Hfind as [Hin _].
  unfold calendar in Hin.
  repeat (destruct Hin as [<-|Hin];
          [split; [vm_compute; discriminate|eexists; split; vm_compute; reflexivity]|]).
  destruct Hin.
Qed.

(** The record built from the row without [name] is formatted to itself. *)
Lemma format_values_idempotent_witness :
  format_values (Lib := library) (asset_stream "campaigns") partial_record
  = Ok partial_record.
Proof.
  apply (format_values_idempotent (Lib := library) (asset_stream "campaigns")
           partial_row partial_record fixture_formats_are_stable).
  - apply (bool_decide_unpack _). vm_compute. exact I.
  - vm_compute. reflexivity.
Defined.

(** A click row whose attributes hold [Campaign Run ID] and [leadId]. *)
Lemma flatten_activity_precedence_witness :
  flatten_activity (Lib := library_with_attrs) click_row click_schema = Ok click_flat /\
  exists attrs,
    row_attrs (Lib := library_with_attrs) click_row = Ok attrs /\
    forall k,
      click_flat !! k
      = match attr_lookup attrs k with
        | Some v => Some v
        | None =>
            if is_alias click_schema k then click_row !! "primaryAttributeValue"
            else if str_in k BASE_ACTIVITY_FIELDS then click_row !! k else None
        end.
Proof.
  assert (Hrun : flatten_activity (Lib := library_with_attrs) click_row click_schema
                 = Ok click_flat) by (vm_compute; reflexivity).
  split; [exact Hrun|].
  exact (flatten_activity_precedence (Lib := library_with_attrs)
           click_row click_schema click_flat Hrun).
Defined.

(** The attribute [leadId] of the same row lands under [leadid] and leaves
    the base field [leadId] alone. *)
Lemma flatten_activity_keeps_base_fields_witness :
  click_flat !! "leadid" = Some (VInt 9) /\
  is_Some (click_row !! "leadId") /\ click_flat !! "leadId" = click_row !! "leadId".
Proof.
  split; [vm_compute; reflexivity|].
  apply (flatten_activity_keeps_base_fields (Lib := library_with_attrs)
           click_row click_schema click_flat "leadId");
    vm_compute; reflexivity.
Defined.

(** A line of two columns under four headers: the third header has no
    entry. *)
Lemma dict_zip_column_witness :
  dict_zip activity_headers ["g-1"; "7"] ∅ !! "leadId" = Some (VStr "7") /\
  dict_zip activity_headers ["g-1"; "7"] ∅ !! "activityDate" = None.
Proof.
  assert (Hnd : NoDup activity_headers).
  { apply (bool_decide_unpack _). vm_compute. exact I. }
  split.
  - exact (dict_zip_column activity_headers ["g-1"; "7"] 1 "leadId" Hnd eq_refl).
  - exact (dict_zip_column activity_headers ["g-1"; "7"] 2 "activityDate" Hnd eq_refl).
Defined.

Lemma activity_record_needs_base_columns_witness :
  exists values,
    parse_csv_line (Library := library) stale_line = Ok values /\
    forall f, str_in f BASE_ACTIVITY_FIELDS = true ->
      exists i v, activity_headers !! i = Some f /\ values !! i = Some v.
Proof.
  apply (activity_record_needs_base_columns (Lib := library) activity_stream
           activity_headers stale_line stale_record).
  vm_compute. reflexivity.
Defined.

(** Two activity types, both written. *)
Lemma sync_activity_types_writes_all_rows_witness :
  sync_activity_types (Lib := library) (Cli := client) activity_types_stream types_world
  = ({| w_env := quiet today_seconds []; w_state := w_state types_world;
        w_out := Request "GET" "rest/v1/activities/types.json" "activity_types" []
                 :: map (WriteRecord "activity_types") types_rows |},
     Done 2).
Proof.
  apply (sync_activity_types_writes_all_rows (Lib := library) (Cli := client)
           activity_types_stream types_world (quiet today_seconds [])
           (page types_rows None) types_rows types_rows).
  - vm_compute. reflexivity.
  - reflexivity.
  - repeat constructor; vm_compute; reflexivity.
Defined.

(** The campaigns sync of the fixture: one record written, metric 1. *)
Lemma record_count_metric_is_exact_witness :
  exists evs n st1 st2,
    w_out (fst (sync_stream (Lib := library) (Cli := client) 5
                  (asset_stream "campaigns") campaigns_world))
    = (w_out campaigns_world
       ++ LogInfo "campaigns: starting sync" :: WriteState st1 :: evs
       ++ [RecordCount "campaigns" n; WriteState st2;
           LogInfo "campaigns: finished sync"])%list /\
    n = Z.of_nat (length (List.filter is_record evs)).
Proof.
  apply (record_count_metric_is_exact (Lib := library) (Cli := client)
           (asset_stream "campaigns") 5 campaigns_world).
  vm_compute. reflexivity.
Defined.

(** The marker names [leads]; the catalog holds campaigns and lists. *)
Lemma sync_skips_whole_catalog_witness :
  exists evs,
    run_sync 5 [asset_stream "campaigns"; asset_stream "lists"] stale_marker_world
    = ({| w_env := w_env stale_marker_world; w_state := w_state stale_marker_world;
          w_out := (w_out stale_marker_world ++ evs)%list |}, Done tt) /\
    forallb is_log evs = true.
Proof.
  apply (sync_skips_whole_catalog (Lib := library) (Cli := client) 5
           [asset_stream "campaigns"; asset_stream "lists"] stale_marker_world).
  vm_compute. reflexivity.
Defined.

(** The first page announces [token-2] and the request for it fails. *)
Lemma paginated_token_resumes_witness :
  exists w',
    run_paginated 2 (asset_stream "campaigns") interrupted_world
    = (w', Raise (ClientError "no response prepared")) /\
    state_get_bookmark (w_state w') "campaigns" "next_page_token" = Some "token-2" /\
    forall w2 : world env,
      w_state w2 = w_state w' ->
      exists w3 o evs,
        run_paginated 1 (asset_stream "campaigns") w2 = (w3, o) /\
        w_out w3
        = (w_out w2
           ++ Request "GET" "rest/v1/campaigns.json" "campaigns"
                [("batchSize", VInt 300); ("nextPageToken", VStr "token-2")]
           :: evs)%list.
Proof.
  set (s := asset_stream "campaigns").
  set (first := Request "GET" "rest/v1/campaigns.json" "campaigns" [("batchSize", VInt 300)]).
  apply (paginated_token_resumes (Lib := library) (Cli := client) s "updatedAt"
           0 0 interrupted_world
           {| w_env := quiet today_seconds []; w_state := w_state interrupted_world;
              w_out := [first; WriteRecord "campaigns" welcome_record] |}
           (quiet today_seconds []) (page [asset 1 "Welcome" june] (Some "token-2"))
           [asset 1 "Welcome" june] (1, Some t2017) "token-2"
           (quiet today_seconds []) (ClientError "no response prepared"));
    try (vm_compute; reflexivity); discriminate.
Defined.

(** The one-page campaigns sync of the fixture ends normally: the token is
    unset and a later run asks for the first page. *)
Lemma completed_paginated_run_restarts_witness :
  let w' := fst (run_paginated 2 (asset_stream "campaigns") campaigns_world) in
  state_get_bookmark (w_state w') "campaigns" "next_page_token" = None /\
  forall w2 : world env,
    w_state w2 = w_state w' ->
    exists w3 o evs,
      run_paginated 1 (asset_stream "campaigns") w2 = (w3, o) /\
      w_out w3
      = (w_out w2
         ++ Request "GET" "rest/v1/campaigns.json" "campaigns" [("batchSize", VInt 300)]
         :: evs)%list.
Proof.
  intros w'.
  apply (completed_paginated_run_restarts (Lib := library) (Cli := client)
           (asset_stream "campaigns") "updatedAt" 2 0 campaigns_world w' 1).
  - reflexivity.
  - discriminate.
  - vm_compute. reflexivity.
Defined.

(** The bookmarked export of the fixture: the June line is dropped, the
    line dated at the window end is written, the cursor moves there. *)
Lemma resumed_export_moves_cursor_to_window_end_witness :
  let run := run_activities 1 activity_stream resumed_export_world in
  snd run = Done 1 /\
  state_get_bookmark (w_state (fst run)) "activities_1" "activityDate" = Some today /\
  state_get_bookmark (w_state (fst run)) "activities_1" "export_id" = None /\
  state_get_bookmark (w_state (fst run)) "activities_1" "export_end" = None.
Proof.
  intros run.
  set (drained :=
         fst (drain_lines (Lib := library) activity_stream activity_headers
                ["g-1,7," ++ june ++ ",1"; "g-2,8," ++ today ++ ",1"] 0
                {| w_env := w_env resumed_export_world;
                   w_state := w_state resumed_export_world;
                   w_out := [WaitForExport "activities" "export-7";
                             StreamExport "activities" "export-7"] |})).
  pose proof (resumed_export_moves_cursor_to_window_end (Lib := library) (Cli := client)
                activity_stream "activityDate" 0 resumed_export_world drained
                (at_seconds 1788134400) (w_env resumed_export_world)
                (at_seconds today_seconds) "export-7" (w_env resumed_export_world)
                (w_env resumed_export_world) export_header
                ["g-1,7," ++ june ++ ",1"; "g-2,8," ++ today ++ ",1"]
                activity_headers 1 today (at_seconds today_seconds)) as Hthm.
  cbv zeta in Hthm.
  do 14 (feed Hthm ltac:(first [discriminate | vm_compute; reflexivity])).
  destruct Hthm as (Hrun & Hcursor & _).
  subst run. unfold run_activities. rewrite Hrun. simpl fst. simpl snd.
  split; [reflexivity|]. split; [exact Hcursor|].
  split; vm_compute; reflexivity.
Defined.

End FurtherRuns.
